(** * Complaint submission bot (src/main.py): model and properties

    The bot keeps three pieces of mutable state: [user_data_store] (one
    draft dictionary per user), [complaint_store] (complaint records by
    id) and [complaint_counter].  A [ConversationHandler] tracks the step
    of the submission flow, one conversation per chat and user.  The
    handlers are embedded as functions that pass the state explicitly and
    return the list of outbound calls they make on the messaging
    gateway. *)

From Stdlib Require Import ZArith NArith List Sorted Ascii String Decimal DecimalN.
From stdpp Require Import gmap list.

Open Scope Z_scope.

(** ** Python strings

    A Python [str] is a sequence of Unicode code points. *)

Abbreviation char := N (only parsing).
Abbreviation str := (list N) (only parsing).

Module Str.

(** A literal of the source, written as an ASCII string. *)
Definition lit (s : string) : str :=
  map N_of_ascii (list_ascii_of_string s).

(** [s.startswith(prefix)] *)
Fixpoint startswith (prefix s : str) : bool :=
  match prefix, s with
  | [], _ => true
  | _ :: _, [] => false
  | p :: prefix', c :: s' => if (p =? c)%N then startswith prefix' s' else false
  end.

(** [s.replace(old, new)]: every non-overlapping occurrence of [old],
    scanning from the left.  [skip] counts the characters of a matched
    occurrence that are still to be passed over. *)
Fixpoint replace_from (old new s : str) (skip : nat) : str :=
  match s with
  | [] => []
  | c :: s' =>
      match skip with
      | S k => replace_from old new s' k
      | O =>
          if startswith old s
          then new ++ replace_from old new s' (length old - 1)
          else c :: replace_from old new s' 0
      end
  end.

Definition replace (old new s : str) : str :=
  match old with
  | [] => new ++ flat_map (fun c => c :: new) s
  | _ :: _ => replace_from old new s 0
  end.

(** [s.split(sep)] for a non-empty separator (the source only splits
    on ["_"]; Python raises ValueError on an empty one).  [cur] is the
    current piece, reversed. *)
Fixpoint split_from (sep s : str) (skip : nat) (cur : str) : list str :=
  match s with
  | [] => [rev cur]
  | c :: s' =>
      match skip with
      | S k => split_from sep s' k cur
      | O =>
          if startswith sep s
          then rev cur :: split_from sep s' (length sep - 1) []
          else split_from sep s' 0 (c :: cur)
      end
  end.

Definition split (sep s : str) : list str := split_from sep s 0 [].

(** [sep.join(parts)] *)
Fixpoint join (sep : str) (parts : list str) : str :=
  match parts with
  | [] => []
  | [p] => p
  | p :: rest => p ++ sep ++ join sep rest
  end.

(** [parts[1:-1]] *)
Definition slice_1_m1 {A} (parts : list A) : list A :=
  removelast (tl parts).

(** [parts[-1]] on a non-empty list. *)
Definition item_m1 {A} (d : A) (parts : list A) : A := List.last parts d.

(** [str.lower] on the ASCII letters.  Above code point 127 Python
    applies the Unicode case mapping, which is not modelled: the
    program lowers only the labels of [STATUS_OPTIONS]. *)
Definition lower_char (c : char) : char :=
  if ((65 <=? c) && (c <=? 90))%N then (c + 32)%N else c.

Definition lower (s : str) : str := map lower_char s.

(** [str.isspace] on one code point: the white space of CPython's
    Unicode database. *)
Definition isspace (c : char) : bool :=
  ((9 <=? c) && (c <=? 13) || (28 <=? c) && (c <=? 32)
   || (c =? 133) || (c =? 160) || (c =? 5760)
   || (8192 <=? c) && (c <=? 8202)
   || (c =? 8232) || (c =? 8233) || (c =? 8239) || (c =? 8287)
   || (c =? 12288))%N.

Fixpoint lstrip (s : str) : str :=
  match s with
  | [] => []
  | c :: s' => if isspace c then lstrip s' else s
  end.

Definition rstrip (s : str) : str := rev (lstrip (rev s)).

(** [s.strip()] *)
Definition strip (s : str) : str := rstrip (lstrip s).

(** [f"{n}"] for a non-negative integer: decimal digits, no leading
    zero. *)
Fixpoint digits (d : Decimal.uint) : str :=
  match d with
  | Nil => []
  | D0 d => 48%N :: digits d
  | D1 d => 49%N :: digits d
  | D2 d => 50%N :: digits d
  | D3 d => 51%N :: digits d
  | D4 d => 52%N :: digits d
  | D5 d => 53%N :: digits d
  | D6 d => 54%N :: digits d
  | D7 d => 55%N :: digits d
  | D8 d => 56%N :: digits d
  | D9 d => 57%N :: digits d
  end.

Definition decimal (n : N) : str := digits (N.to_uint n).

(** [int(s)] on a string of decimal digits; [None] for any other
    character. *)
Fixpoint undigits (s : str) : option Decimal.uint :=
  match s with
  | [] => Some Nil
  | c :: s' =>
      d ← undigits s';
      if (c =? 48)%N then Some (D0 d) else
      if (c =? 49)%N then Some (D1 d) else
      if (c =? 50)%N then Some (D2 d) else
      if (c =? 51)%N then Some (D3 d) else
      if (c =? 52)%N then Some (D4 d) else
      if (c =? 53)%N then Some (D5 d) else
      if (c =? 54)%N then Some (D6 d) else
      if (c =? 55)%N then Some (D7 d) else
      if (c =? 56)%N then Some (D8 d) else
      if (c =? 57)%N then Some (D9 d) else None
  end.

(** Python's order on strings: lexicographic on code points. *)
Fixpoint ltb (a b : str) : bool :=
  match a, b with
  | [], [] => false
  | [], _ :: _ => true
  | _ :: _, [] => false
  | x :: a', y :: b' =>
      if (x <? y)%N then true else if (x =? y)%N then ltb a' b' else false
  end.

End Str.

(** ** Configuration *)

(** [ADMIN_CHAT_ID] is read from the environment at start-up. *)
Class Config := { ADMIN_CHAT_ID : Z }.

(** The value used when the environment does not set it. *)
Definition default_config : Config := {| ADMIN_CHAT_ID := 5915871770 |}.

Definition BATCHES : list str :=
  [Str.lit "Master quest 2.0 2025"; Str.lit "master quest 2026";
   Str.lit "Ace ipm crash course"].

Definition SUBJECTS : list str :=
  [Str.lit "Quant"; Str.lit "DILR"; Str.lit "VARC"; Str.lit "Current Affairs"].

Definition STATUS_OPTIONS : list str :=
  [Str.lit "Send"; Str.lit "Seen"; Str.lit "Approved"; Str.lit "Resolved"].

(** Conversation states; [ConversationHandler.END] is the absence of a
    state. *)
Inductive conv_state :=
| BATCH_SELECTION
| SUBJECT_SELECTION
| LECTURE_NAME_INPUT
| SCREENSHOT_UPLOAD
| ADMIN_STATUS_UPDATE.

Inductive handler_result :=
| Next (st : conv_state)
| END.

(** ** Data *)

Module User.
Record t := { id : Z; username : option str; first_name : str }.
End User.

Module PhotoSize.
Record t := { file_id : str; width : Z; height : Z }.
End PhotoSize.

Module Complaint.
(** The dictionary built by [create_complaint]; the fields taken from
    the draft with [dict.get] are [None] when the key is missing. *)
Record t := {
  id : str;
  user_id : Z;
  username : option str;
  batch : option str;
  subject : option str;
  lecture_name : option str;
  photo_file_id : str;
  status : str;
  created_at : option unit
}.

Definition set_status (new_status : str) (c : t) : t :=
  {| id := id c; user_id := user_id c; username := username c;
     batch := batch c; subject := subject c;
     lecture_name := lecture_name c; photo_file_id := photo_file_id c;
     status := new_status; created_at := created_at c |}.
End Complaint.

(** The global stores, the counter and the conversation table kept by
    the [ConversationHandler].  The handler is built with its default
    keys: a conversation belongs to a chat and a user, and is filed
    under the pair (chat id, user id).  The drafts are filed under the
    user id alone. *)
Record bot := {
  user_data_store : gmap Z (gmap str str);
  complaint_store : gmap str Complaint.t;
  complaint_counter : N;
  conversations : gmap (Z * Z) conv_state
}.

Definition initial : bot :=
  {| user_data_store := ∅; complaint_store := ∅; complaint_counter := 0%N;
     conversations := ∅ |}.

Definition with_user_data (f : gmap Z (gmap str str) → gmap Z (gmap str str))
    (s : bot) : bot :=
  {| user_data_store := f (user_data_store s);
     complaint_store := complaint_store s;
     complaint_counter := complaint_counter s;
     conversations := conversations s |}.

Definition with_conversations
    (f : gmap (Z * Z) conv_state → gmap (Z * Z) conv_state)
    (s : bot) : bot :=
  {| user_data_store := user_data_store s;
     complaint_store := complaint_store s;
     complaint_counter := complaint_counter s;
     conversations := f (conversations s) |}.

(** ** Utility functions *)

Definition store_user_data (user_id : Z) (key value : str) (s : bot) : bot :=
  with_user_data
    (fun store => <[user_id := <[key := value]> (default ∅ (store !! user_id))]> store)
    s.

(** [get_user_data(user_id)] without a key: the user's dictionary, or an
    empty one. *)
Definition get_user_data (s : bot) (user_id : Z) : gmap str str :=
  default ∅ (user_data_store s !! user_id).

Definition clear_user_data (user_id : Z) (s : bot) : bot :=
  with_user_data (delete user_id) s.

Definition complaint_id_of (counter : N) : str :=
  Str.lit "complaint_" ++ Str.decimal counter.

Definition create_complaint (s : bot) (user_id : Z) (username : option str)
    (batch subject lecture_name : option str) (photo_file_id : str)
    : bot * str :=
  let counter := (complaint_counter s + 1)%N in
  let complaint_id := complaint_id_of counter in
  let complaint_data :=
    {| Complaint.id := complaint_id;
       Complaint.user_id := user_id;
       Complaint.username := username;
       Complaint.batch := batch;
       Complaint.subject := subject;
       Complaint.lecture_name := lecture_name;
       Complaint.photo_file_id := photo_file_id;
       Complaint.status := Str.lit "submitted";
       Complaint.created_at := None |} in
  ({| user_data_store := user_data_store s;
      complaint_store := <[complaint_id := complaint_data]> (complaint_store s);
      complaint_counter := counter;
      conversations := conversations s |},
   complaint_id).

Definition update_complaint_status (s : bot) (complaint_id new_status : str)
    : bot * bool :=
  match complaint_store s !! complaint_id with
  | Some c =>
      ({| user_data_store := user_data_store s;
          complaint_store :=
            <[complaint_id := Complaint.set_status new_status c]> (complaint_store s);
          complaint_counter := complaint_counter s;
          conversations := conversations s |},
       true)
  | None => (s, false)
  end.

Definition get_complaint (s : bot) (complaint_id : str) : option Complaint.t :=
  complaint_store s !! complaint_id.

Definition is_admin `{Config} (user_id : Z) : bool := user_id =? ADMIN_CHAT_ID.

(** ** Keyboards: rows of buttons, each a label and its callback data *)

Abbreviation keyboard := (list (list (str * str))) (only parsing).

Definition get_batch_keyboard : keyboard :=
  map (fun batch =>
         [(batch, Str.lit "batch_" ++ Str.replace (Str.lit " ") (Str.lit "_") batch)])
      BATCHES.

Definition get_subject_keyboard : keyboard :=
  map (fun subject =>
         [(subject, Str.lit "subject_" ++ Str.replace (Str.lit " ") (Str.lit "_") subject)])
      SUBJECTS.

Definition status_callback_data (complaint_id status : str) : str :=
  Str.lit "status_" ++ complaint_id ++ Str.lit "_" ++ Str.lower status.

(** Two buttons per row; a last, shorter row takes what remains. *)
Fixpoint status_rows (complaint_id : str) (i : nat) (row : list (str * str))
    (options : list str) : keyboard :=
  match options with
  | [] => match row with [] => [] | _ :: _ => [row] end
  | status :: rest =>
      let row' := row ++ [(status, status_callback_data complaint_id status)] in
      if ((i + 1) mod 2 =? 0)%nat
      then row' :: status_rows complaint_id (S i) [] rest
      else status_rows complaint_id (S i) row' rest
  end.

Definition get_status_keyboard (complaint_id : str) : keyboard :=
  status_rows complaint_id 0 [] STATUS_OPTIONS.

Definition get_back_to_batch_keyboard : keyboard :=
  [[(128260%N :: Str.lit " Start Over", Str.lit "restart")]].

(** ** Inbound updates and outbound calls *)

(** What an update carries.  [Command name] is a message whose text
    begins with a bot command; [name] is the command as
    [CommandHandler] reads it, that is the text between the slash and
    the first blank, without the [@botname] suffix of a command
    addressed to this bot.  [Text] is any other text message; [Photo] is
    a message with the size variants of one image, in the order the
    gateway delivers them; [Attachment] is a message with neither text
    nor photo. *)
Inductive payload :=
| Command (name : str)
| Text (text : str)
| Photo (photo : list PhotoSize.t)
| Attachment
| CallbackQuery (data : str).

(** An update comes from a user in a chat.  In a private chat the chat
    has the user's identifier; in a group it has its own. *)
Record Update := {
  effective_user : User.t;
  effective_chat : Z;
  content : payload
}.

(** Message texts, by template; the arguments are the interpolated
    values. *)
Inductive text_msg :=
| WelcomeMsg (first_name : str)
| StartingOverMsg
| BatchSelectedMsg (batch : str)
| SubjectSelectedMsg (subject : str) (batch : option str)
| InvalidLectureNameMsg
| LectureSavedMsg (lecture_name : str) (batch subject : option str)
| NotAnImageMsg
| SubmittedMsg (complaint_id : str)
| ComplaintMsg (complaint_data : Complaint.t)
| NotAuthorizedMsg
| NotFoundMsg
| StatusChangedMsg (complaint_id new_status : str) (subject lecture_name : option str)
| StatusUpdatedNotifiedMsg (new_status : str)
| StatusUpdatedNotNotifiedMsg (new_status : str)
| CancelledMsg
| UnknownCommandMsg.

Definition format_complaint_message (complaint_data : Complaint.t) : text_msg :=
  ComplaintMsg complaint_data.

(** Calls on the gateway, in the order they are made. *)
Inductive action :=
| reply_text (chat_id : Z) (text : text_msg) (reply_markup : option (list (list (str * str))))
| answer (alert : option text_msg)
| send_photo (chat_id : Z) (photo : str)
| send_message (chat_id : Z) (text : text_msg) (reply_markup : option (list (list (str * str))))
| edit_message_text (text : text_msg) (reply_markup : option (list (list (str * str)))).

(** How the gateway answers the calls the source wraps in [try]: whether
    [send_photo] and [send_message] return, and what
    [edit_message_text] does.  Calls outside a [try] are taken to
    return. *)
Inductive edit_outcome :=
| EditOk
| EditNotModified     (* BadRequest: Message is not modified *)
| EditBadRequest      (* any other BadRequest *)
| EditError.          (* any other exception *)

Record gateway := {
  send_photo_ok : bool;
  send_message_ok : bool;
  edit_result : edit_outcome
}.

(** ** Handlers *)

Definition start_command (s : bot) (chat_id : Z) (user : User.t)
    : bot * list action * handler_result :=
  let s := clear_user_data (User.id user) s in
  (s,
   [reply_text chat_id (WelcomeMsg (User.first_name user)) (Some get_batch_keyboard)],
   Next BATCH_SELECTION).

Definition batch_selection_handler (s : bot) (chat_id : Z) (user : User.t)
    (data : str)
    : bot * list action * handler_result :=
  if bool_decide (data = Str.lit "restart") then
    (s,
     [answer None;
      reply_text chat_id StartingOverMsg (Some get_batch_keyboard)],
     Next BATCH_SELECTION)
  else if Str.startswith (Str.lit "batch_") data then
    let batch :=
      Str.replace (Str.lit "_") (Str.lit " ")
        (Str.replace (Str.lit "batch_") (Str.lit "") data) in
    let s := store_user_data (User.id user) (Str.lit "batch") batch s in
    (s,
     [answer None;
      reply_text chat_id (BatchSelectedMsg batch) (Some get_subject_keyboard)],
     Next SUBJECT_SELECTION)
  else (s, [answer None], Next BATCH_SELECTION).

Definition subject_selection_handler (s : bot) (chat_id : Z) (user : User.t)
    (data : str)
    : bot * list action * handler_result :=
  if Str.startswith (Str.lit "subject_") data then
    let subject :=
      Str.replace (Str.lit "_") (Str.lit " ")
        (Str.replace (Str.lit "subject_") (Str.lit "") data) in
    let s := store_user_data (User.id user) (Str.lit "subject") subject s in
    let user_data := get_user_data s (User.id user) in
    (s,
     [answer None;
      reply_text chat_id
        (SubjectSelectedMsg subject (user_data !! Str.lit "batch")) None],
     Next LECTURE_NAME_INPUT)
  else (s, [answer None], Next SUBJECT_SELECTION).

Definition lecture_name_handler (s : bot) (chat_id : Z) (user : User.t)
    (text : str)
    : bot * list action * handler_result :=
  let lecture_name := Str.strip text in
  match lecture_name with
  | [] =>
      (s, [reply_text chat_id InvalidLectureNameMsg None],
       Next LECTURE_NAME_INPUT)
  | _ :: _ =>
      let s := store_user_data (User.id user) (Str.lit "lecture_name") lecture_name s in
      let user_data := get_user_data s (User.id user) in
      (s,
       [reply_text chat_id
          (LectureSavedMsg lecture_name (user_data !! Str.lit "batch")
             (user_data !! Str.lit "subject")) None],
       Next SCREENSHOT_UPLOAD)
  end.

Definition send_complaint_to_admin `{Config} (s : bot) (g : gateway)
    (complaint_id : str) : list action :=
  match get_complaint s complaint_id with
  | None => []
  | Some complaint_data =>
      send_photo ADMIN_CHAT_ID (Complaint.photo_file_id complaint_data)
      :: (if send_photo_ok g
          then [send_message ADMIN_CHAT_ID
                  (format_complaint_message complaint_data)
                  (Some (get_status_keyboard complaint_id))]
          else [])
  end.

(** [photo] is [update.message.photo]: empty for a text message. *)
Definition screenshot_handler `{Config} (s : bot) (g : gateway) (chat_id : Z)
    (user : User.t) (photo : list PhotoSize.t) : bot * list action * handler_result :=
  match photo with
  | [] =>
      (s, [reply_text chat_id NotAnImageMsg None], Next SCREENSHOT_UPLOAD)
  | first :: _ =>
      let photo_file_id := PhotoSize.file_id (Str.item_m1 first photo) in
      let user_data := get_user_data s (User.id user) in
      let '(s, complaint_id) :=
        create_complaint s (User.id user) (User.username user)
          (user_data !! Str.lit "batch") (user_data !! Str.lit "subject")
          (user_data !! Str.lit "lecture_name") photo_file_id in
      let s := store_user_data (User.id user) (Str.lit "complaint_id") complaint_id s in
      let forwarded := send_complaint_to_admin s g complaint_id in
      let s := clear_user_data (User.id user) s in
      (s,
       reply_text chat_id (SubmittedMsg complaint_id) None :: forwarded,
       END)
  end.

(** The payload of a status button, taken apart as the handler does:
    the parts between the first and the last are the complaint id, the
    last is the status. *)
Definition parse_status_data (data : str) : option (str * str) :=
  if Str.startswith (Str.lit "status_") data then
    let parts := Str.split (Str.lit "_") data in
    if (3 <=? length parts)%nat then
      Some (Str.join (Str.lit "_") (Str.slice_1_m1 parts), Str.item_m1 [] parts)
    else None
  else None.

Definition admin_status_handler `{Config} (s : bot) (g : gateway) (chat_id : Z)
    (user : User.t) (data : str) : bot * list action :=
  if negb (is_admin (User.id user)) then (s, [answer (Some NotAuthorizedMsg)])
  else
    match parse_status_data data with
    | None => (s, [answer None])
    | Some (complaint_id, new_status) =>
        match get_complaint s complaint_id with
        | None => (s, [answer None; reply_text chat_id NotFoundMsg None])
        | Some complaint_data =>
            let '(s, _) := update_complaint_status s complaint_id new_status in
            let notify :=
              send_message (Complaint.user_id complaint_data)
                (StatusChangedMsg complaint_id new_status
                   (Complaint.subject complaint_data)
                   (Complaint.lecture_name complaint_data)) None in
            let not_notified :=
              reply_text chat_id (StatusUpdatedNotNotifiedMsg new_status) None in
            let after_notify :=
              if send_message_ok g then
                match get_complaint s complaint_id with
                | None => [not_notified]
                | Some updated_complaint =>
                    edit_message_text (format_complaint_message updated_complaint)
                      (Some (get_status_keyboard complaint_id))
                    :: match edit_result g with
                       | EditOk | EditNotModified => []
                       | EditBadRequest =>
                           [reply_text chat_id
                              (StatusUpdatedNotifiedMsg new_status) None]
                       | EditError => [not_notified]
                       end
                end
              else [not_notified] in
            (s, answer None :: notify :: after_notify)
        end
    end.

Definition cancel_handler (s : bot) (chat_id : Z) (user : User.t)
    : bot * list action * handler_result :=
  let s := clear_user_data (User.id user) s in
  (s, [reply_text chat_id CancelledMsg None], END).

Definition unknown_handler (s : bot) (chat_id : Z) (user : User.t) : bot * list action :=
  (s, [reply_text chat_id UnknownCommandMsg None]).

(** ** Dispatch *)

(** [CommandHandler(command, _)]: the command name is compared in lower
    case. *)
Definition is_command (command : str) (p : payload) : bool :=
  match p with
  | Command name => bool_decide (Str.lower name = command)
  | _ => false
  end.

(** [CallbackQueryHandler(_, pattern)] for a pattern that anchors one of
    several literal prefixes. *)
Definition callback_matches (prefixes : list str) (p : payload) : bool :=
  match p with
  | CallbackQuery data => existsb (fun prefix => Str.startswith prefix data) prefixes
  | _ => false
  end.

(** [filters.TEXT & ~filters.COMMAND] *)
Definition text_not_command (p : payload) : bool :=
  match p with
  | Text (_ :: _) => true
  | _ => false
  end.

(** [filters.PHOTO] *)
Definition is_photo (p : payload) : bool :=
  match p with
  | Photo (_ :: _) => true
  | _ => false
  end.

Inductive callback :=
| StartCommand
| BatchSelection
| SubjectSelection
| LectureName
| Screenshot
| Cancel.

(** The [states] table of the conversation handler. *)
Definition state_handlers (st : conv_state) (p : payload) : option callback :=
  match st with
  | BATCH_SELECTION =>
      if callback_matches [Str.lit "batch_"; Str.lit "restart"] p
      then Some BatchSelection else None
  | SUBJECT_SELECTION =>
      if callback_matches [Str.lit "subject_"] p then Some SubjectSelection else None
  | LECTURE_NAME_INPUT =>
      if text_not_command p then Some LectureName else None
  | SCREENSHOT_UPLOAD =>
      if is_photo p then Some Screenshot
      else if text_not_command p then Some Screenshot else None
  | ADMIN_STATUS_UPDATE => None
  end.

(** Which handler of the conversation takes the update: the entry point
    first (re-entry is allowed), then the handlers of the current state,
    then the fallbacks. *)
Definition check_update (state : option conv_state) (p : payload) : option callback :=
  if is_command (Str.lit "start") p then Some StartCommand
  else
    match state with
    | None => None
    | Some st =>
        match state_handlers st p with
        | Some h => Some h
        | None =>
            if is_command (Str.lit "cancel") p then Some Cancel
            else if is_command (Str.lit "start") p then Some StartCommand
            else None
        end
    end.

Definition message_text (p : payload) : str :=
  match p with Text text => text | _ => [] end.

Definition message_photo (p : payload) : list PhotoSize.t :=
  match p with Photo photo => photo | _ => [] end.

Definition callback_data (p : payload) : str :=
  match p with CallbackQuery data => data | _ => [] end.

Definition run_callback `{Config} (h : callback) (s : bot) (g : gateway)
    (u : Update) : bot * list action * handler_result :=
  let user := effective_user u in
  let chat_id := effective_chat u in
  match h with
  | StartCommand => start_command s chat_id user
  | BatchSelection =>
      batch_selection_handler s chat_id user (callback_data (content u))
  | SubjectSelection =>
      subject_selection_handler s chat_id user (callback_data (content u))
  | LectureName => lecture_name_handler s chat_id user (message_text (content u))
  | Screenshot => screenshot_handler s g chat_id user (message_photo (content u))
  | Cancel => cancel_handler s chat_id user
  end.

(** The handler's return value becomes the state of the conversation
    filed under [key]; [END] removes it. *)
Definition update_state (key : Z * Z) (r : handler_result) (s : bot) : bot :=
  match r with
  | Next st => with_conversations <[key := st]> s
  | END => with_conversations (delete key) s
  end.

Definition conversation_handler `{Config} (s : bot) (g : gateway) (u : Update)
    : option (bot * list action) :=
  let key := (effective_chat u, User.id (effective_user u)) in
  match check_update (conversations s !! key) (content u) with
  | None => None
  | Some h =>
      let '(s, actions, r) := run_callback h s g u in
      Some (update_state key r s, actions)
  end.

(** The application's handlers, in the order they were added: the first
    one that accepts the update handles it. *)
Definition process_update `{Config} (s : bot) (g : gateway) (u : Update)
    : bot * list action :=
  match conversation_handler s g u with
  | Some r => r
  | None =>
      if callback_matches [Str.lit "status_"] (content u)
      then
        admin_status_handler s g (effective_chat u) (effective_user u)
          (callback_data (content u))
      else
        match content u with
        | Command _ => unknown_handler s (effective_chat u) (effective_user u)
        | _ => (s, [])
        end
  end.

(** The state after a sequence of updates, each with the gateway's
    behaviour while it is handled. *)
Definition run `{Config} (s : bot) (updates : list (gateway * Update)) : bot :=
  fold_left (fun s gu => fst (process_update s gu.1 gu.2)) updates s.

(** ** Notions used by the properties *)

(** The draft's fields are filled in the order batch, subject,
    lecture_name, and last the key written by the photo step. *)
Definition draft_ordered (d : gmap str str) : Prop :=
  (is_Some (d !! Str.lit "subject") → is_Some (d !! Str.lit "batch"))
  ∧ (is_Some (d !! Str.lit "lecture_name") → is_Some (d !! Str.lit "subject"))
  ∧ (is_Some (d !! Str.lit "complaint_id") → is_Some (d !! Str.lit "lecture_name")).

(** What the draft holds at each step of the conversation. *)
Definition step_fields (st : option conv_state) (d : gmap str str) : Prop :=
  match st with
  | Some SUBJECT_SELECTION => is_Some (d !! Str.lit "batch")
  | Some LECTURE_NAME_INPUT =>
      is_Some (d !! Str.lit "batch") ∧ is_Some (d !! Str.lit "subject")
  | Some SCREENSHOT_UPLOAD =>
      is_Some (d !! Str.lit "batch") ∧ is_Some (d !! Str.lit "subject")
      ∧ is_Some (d !! Str.lit "lecture_name")
  | _ => True
  end.

(** All updates of a user come from one chat, the user's [home]. *)
Definition one_chat (home : Z → Z) (updates : list (gateway * Update)) : Prop :=
  Forall
    (fun gu => effective_chat gu.2 = home (User.id (effective_user gu.2)))
    updates.

Definition flow_inv (home : Z → Z) (s : bot) : Prop :=
  ∀ uid : Z,
    draft_ordered (get_user_data s uid)
    ∧ step_fields (conversations s !! (home uid, uid)) (get_user_data s uid).

(** The input that the step [st] of the conversation acts on. *)
Definition step_input (st : option conv_state) (p : payload) : bool :=
  match st, p with
  | Some BATCH_SELECTION, CallbackQuery data => Str.startswith (Str.lit "batch_") data
  | Some SUBJECT_SELECTION, CallbackQuery data => Str.startswith (Str.lit "subject_") data
  | Some LECTURE_NAME_INPUT, Text text =>
      match Str.strip text with [] => false | _ :: _ => true end
  | Some SCREENSHOT_UPLOAD, Photo (_ :: _) => true
  | _, _ => false
  end.

Definition is_any_command (p : payload) : bool :=
  match p with Command _ => true | _ => false end.

(** The status enumeration of the data model. *)
Definition STATUSES : list str :=
  [Str.lit "submitted"; Str.lit "send"; Str.lit "seen"; Str.lit "approved";
   Str.lit "resolved"].

Definition statuses_valid (s : bot) : Prop :=
  ∀ k c, complaint_store s !! k = Some c → Complaint.status c ∈ STATUSES.

(** A status button press whose token is one of the keyboard's. *)
Definition status_token_ok (gu : gateway * Update) : bool :=
  match parse_status_data (callback_data (content gu.2)) with
  | Some (_, new_status) => bool_decide (new_status ∈ map Str.lower STATUS_OPTIONS)
  | None => true
  end.

(** The number [N] of the id [complaint_N]. *)
Definition id_number (complaint_id : str) : option N :=
  if Str.startswith (Str.lit "complaint_") complaint_id
  then N.of_uint <$> Str.undigits (drop 10 complaint_id)
  else None.

(** Every stored complaint is filed under its own id, and that id was
    issued by the counter. *)
Definition ids_inv (s : bot) : Prop :=
  ∀ k c, complaint_store s !! k = Some c →
    Complaint.id c = k
    ∧ ∃ n, (1 ≤ n ≤ complaint_counter s)%N ∧ k = complaint_id_of n.

Definition resolution (p : PhotoSize.t) : Z := PhotoSize.width p * PhotoSize.height p.

(** The gateway lists the variants of an image from the smallest to the
    largest. *)
Definition ascending (photo : list PhotoSize.t) : Prop :=
  StronglySorted (fun p q => resolution p ≤ resolution q) photo.

Definition all_whitespace (text : str) : bool := forallb Str.isspace text.

(** One state change of the program: a call of one of its state-changing
    functions, or the handling of one update. *)
Inductive op_step `{Config} : bot → bot → Prop :=
| op_store_user_data (s : bot) (user_id : Z) (key value : str) :
    op_step s (store_user_data user_id key value s)
| op_clear_user_data (s : bot) (user_id : Z) :
    op_step s (clear_user_data user_id s)
| op_create_complaint (s : bot) (user_id : Z) (username : option str)
    (batch subject lecture_name : option str) (photo_file_id : str) :
    op_step s
      (create_complaint s user_id username batch subject lecture_name
         photo_file_id).1
| op_update_complaint_status (s : bot) (complaint_id new_status : str) :
    op_step s (update_complaint_status s complaint_id new_status).1
| op_update_state (s : bot) (key : Z * Z) (r : handler_result) :
    op_step s (update_state key r s)
| op_process_update (s : bot) (g : gateway) (u : Update) :
    op_step s (process_update s g u).1.

(** ** Further notions *)

(** What [get_user_data(user_id, key)] returns: the whole dictionary when
    [key] is [None] or empty (both are false in a condition), the value
    under [key] otherwise. *)
Inductive user_data_result :=
| WholeDraft (d : gmap str str)
| Value (v : option str).

Definition get_user_data_key (s : bot) (user_id : Z) (key : option str)
    : user_data_result :=
  match user_data_store s !! user_id with
  | None =>
      match key with
      | Some (_ :: _) => Value None
      | _ => WholeDraft ∅
      end
  | Some d =>
      match key with
      | Some (c :: k) => Value (d !! (c :: k))
      | _ => WholeDraft d
      end
  end.

(** [old in s]: [old] occurs somewhere in [s]. *)
Fixpoint occurs (old s : str) : bool :=
  match s with
  | [] => Str.startswith old []
  | _ :: s' => Str.startswith old s || occurs old s'
  end.

(** The callback data of a keyboard button and the value the selection
    handlers read back from it. *)
Definition button_data (prefix name : str) : str :=
  prefix ++ Str.replace (Str.lit " ") (Str.lit "_") name.

Definition selected_value (prefix data : str) : str :=
  Str.replace (Str.lit "_") (Str.lit " ") (Str.replace prefix (Str.lit "") data).

(** The first and the last character of a string are not white space. *)
Definition trimmed (v : str) : Prop :=
  match v with
  | [] => True
  | c :: _ => Str.isspace c = false ∧ Str.isspace (List.last v c) = false
  end.

(** Two complaints that differ at most in their status. *)
Definition same_but_status (c c' : Complaint.t) : Prop :=
  c' = Complaint.set_status (Complaint.status c') c.

(** A draft exists only while its user is past the batch step of a
    conversation. *)
Definition no_stale_draft (home : Z → Z) (s : bot) : Prop :=
  ∀ uid : Z,
    match conversations s !! (home uid, uid) with
    | None | Some BATCH_SELECTION => user_data_store s !! uid = None
    | Some _ => True
    end.

(** The store holds as many complaints as the counter has issued ids. *)
Definition store_inv (s : bot) : Prop :=
  ids_inv s ∧ size (complaint_store s) = N.to_nat (complaint_counter s).

(** ** A sample session

    The scenario of the specification: a user starts, picks the batch
    and the subject, types the lecture name and uploads a photo; the
    admin then presses status buttons. *)

Definition alice : User.t :=
  {| User.id := 1; User.username := Some (Str.lit "alice");
     User.first_name := Str.lit "Alice" |}.

Definition reviewer : User.t :=
  {| User.id := 5915871770; User.username := None;
     User.first_name := Str.lit "Admin" |}.

Definition gateway_up : gateway :=
  {| send_photo_ok := true; send_message_ok := true; edit_result := EditOk |}.

(** The submitter cannot be reached. *)
Definition gateway_blocked : gateway :=
  {| send_photo_ok := true; send_message_ok := false; edit_result := EditOk |}.

(** An update in the user's private chat, and one in another chat. *)
Definition from (user : User.t) (p : payload) : gateway * Update :=
  (gateway_up,
   {| effective_user := user; effective_chat := User.id user; content := p |}).

Definition from_chat (chat_id : Z) (user : User.t) (p : payload)
    : gateway * Update :=
  (gateway_up, {| effective_user := user; effective_chat := chat_id; content := p |}).

Definition screenshot : list PhotoSize.t :=
  [ {| PhotoSize.file_id := Str.lit "thumb"; PhotoSize.width := 90;
       PhotoSize.height := 51 |};
    {| PhotoSize.file_id := Str.lit "full"; PhotoSize.width := 1280;
       PhotoSize.height := 720 |} ].

Definition draft_session : list (gateway * Update) :=
  [ from alice (Command (Str.lit "start"));
    from alice (CallbackQuery (Str.lit "batch_Master_quest_2.0_2025"));
    from alice (CallbackQuery (Str.lit "subject_Quant"));
    from alice (Text (Str.lit "Linear Equations Lecture 3")) ].

Definition submitted_session : list (gateway * Update) :=
  draft_session ++ [from alice (Photo screenshot)].

(** * Properties *)

(** ** Strings *)

Section StrFacts.

Local Open Scope N_scope.

Example split_status_data :
  Str.split (Str.lit "_") (Str.lit "status_complaint_12_seen")
  = [Str.lit "status"; Str.lit "complaint"; Str.lit "12"; Str.lit "seen"].
Proof. reflexivity. Qed.

Example split_trailing_separator :
  Str.split (Str.lit "_") (Str.lit "a_") = [Str.lit "a"; []].
Proof. reflexivity. Qed.

Example replace_batch_data :
  Str.replace (Str.lit "_") (Str.lit " ")
    (Str.replace (Str.lit "batch_") (Str.lit "") (Str.lit "batch_master_quest_2026"))
  = Str.lit "master quest 2026".
Proof. reflexivity. Qed.

Example strip_spaces_and_newline :
  Str.strip ([32; 9] ++ Str.lit "Lecture 3" ++ [10; 32]) = Str.lit "Lecture 3".
Proof. reflexivity. Qed.

Example decimal_120 : Str.decimal 120 = Str.lit "120".
Proof. reflexivity. Qed.

Lemma startswith_app (prefix s : str) : Str.startswith prefix (prefix ++ s) = true.
Proof.
  induction prefix as [|p prefix IH]; simpl; [done|].
  by rewrite N.eqb_refl.
Qed.

Lemma split_from_piece (c : N) (p s cur : str) :
  c ∉ p →
  Str.split_from [c] (p ++ s) 0 cur = Str.split_from [c] s 0 (rev p ++ cur).
Proof.
  revert cur. induction p as [|x p IH]; intros cur Hc; [done|].
  apply not_elem_of_cons in Hc as [Hx Hp].
  cbn [app Str.split_from Str.startswith].
  destruct (N.eqb_spec c x) as [->|_]; [done|].
  rewrite IH by done. simpl. by rewrite <- app_assoc.
Qed.

Lemma split_from_sep (c : N) (s cur : str) :
  Str.split_from [c] (c :: s) 0 cur = rev cur :: Str.split_from [c] s 0 [].
Proof. cbn [Str.split_from Str.startswith]. by rewrite N.eqb_refl. Qed.

Lemma split_from_join (c : N) (p : str) (parts : list str) (cur : str) :
  Forall (fun q => c ∉ q) (p :: parts) →
  Str.split_from [c] (Str.join [c] (p :: parts)) 0 cur
  = (rev cur ++ p) :: parts.
Proof.
  revert p cur. induction parts as [|q parts IH]; intros p cur Hall.
  - apply Forall_cons in Hall as [Hp _]. simpl.
    rewrite <- (app_nil_r p) at 1. rewrite split_from_piece by done.
    simpl. by rewrite rev_app_distr, rev_involutive.
  - apply Forall_cons in Hall as [Hp Hrest].
    change (Str.join [c] (p :: q :: parts))
      with (p ++ c :: Str.join [c] (q :: parts)).
    rewrite split_from_piece, split_from_sep by done.
    rewrite IH by done. simpl. by rewrite rev_app_distr, rev_involutive.
Qed.

Lemma split_join (c : N) (parts : list str) :
  parts ≠ [] → Forall (fun q => c ∉ q) parts →
  Str.split [c] (Str.join [c] parts) = parts.
Proof.
  destruct parts as [|p parts]; [done|]. intros _ Hall.
  unfold Str.split. by rewrite split_from_join.
Qed.

Lemma digits_no_underscore (d : Decimal.uint) : 95 ∉ Str.digits d.
Proof.
  induction d; simpl; [apply not_elem_of_nil|..];
    (apply not_elem_of_cons; split; [discriminate|assumption]).
Qed.

Lemma undigits_digits (d : Decimal.uint) : Str.undigits (Str.digits d) = Some d.
Proof. induction d; simpl; [done|..]; by rewrite IHd. Qed.

Lemma decimal_inj (m n : N) : Str.decimal m = Str.decimal n → m = n.
Proof.
  unfold Str.decimal. intros Heq. apply Unsigned.to_uint_inj.
  apply (f_equal Str.undigits) in Heq. rewrite !undigits_digits in Heq.
  congruence.
Qed.

Lemma lstrip_nil_iff (s : str) : Str.lstrip s = [] ↔ forallb Str.isspace s = true.
Proof.
  induction s as [|c s IH]; simpl; [done|].
  destruct (Str.isspace c); simpl; [done|]. split; discriminate.
Qed.

Lemma forallb_isspace_rev (s : str) :
  forallb Str.isspace (rev s) = forallb Str.isspace s.
Proof.
  induction s as [|c s IH]; simpl; [done|].
  rewrite forallb_app, IH. simpl. rewrite andb_true_r. apply andb_comm.
Qed.

Lemma lstrip_head (s : str) (c : N) (t : str) :
  Str.lstrip s = c :: t → Str.isspace c = false.
Proof.
  induction s as [|x s IH]; simpl; [done|].
  destruct (Str.isspace x) eqn:Hx; [done|]. intros [= <- _]. done.
Qed.

Lemma strip_nil_iff (s : str) : Str.strip s = [] ↔ all_whitespace s = true.
Proof.
  unfold Str.strip, Str.rstrip, all_whitespace. split.
  - intros H. apply (f_equal (@rev N)) in H. rewrite rev_involutive in H.
    simpl in H. apply lstrip_nil_iff in H. rewrite forallb_isspace_rev in H.
    destruct (Str.lstrip s) as [|c t] eqn:Hl; [by apply lstrip_nil_iff|].
    apply lstrip_head in Hl. simpl in H. by rewrite Hl in H.
  - intros H. apply lstrip_nil_iff in H. by rewrite H.
Qed.

Lemma lstrip_split (s : str) :
  ∃ ws, s = ws ++ Str.lstrip s ∧ forallb Str.isspace ws = true.
Proof.
  induction s as [|c s (ws & Heq & Hws)]; [by exists []|].
  simpl. destruct (Str.isspace c) eqn:Hc.
  - exists (c :: ws). simpl. rewrite Hc, Hws. split; [by f_equal|done].
  - by exists [].
Qed.

Lemma rstrip_split (s : str) :
  ∃ ws, s = Str.rstrip s ++ ws ∧ forallb Str.isspace ws = true.
Proof.
  destruct (lstrip_split (rev s)) as (ws & Heq & Hws).
  exists (rev ws). split.
  - unfold Str.rstrip. rewrite <- rev_app_distr, <- Heq. by rewrite rev_involutive.
  - by rewrite forallb_isspace_rev.
Qed.

Lemma strip_trimmed (s : str) : trimmed (Str.strip s).
Proof.
  unfold trimmed. destruct (Str.strip s) as [|c v] eqn:Hstrip; [done|].
  unfold Str.strip in Hstrip.
  destruct (rstrip_split (Str.lstrip s)) as (ws & Heq & _).
  rewrite Hstrip in Heq. split.
  - by apply (lstrip_head s c (v ++ ws)).
  - unfold Str.rstrip in Hstrip.
    destruct (Str.lstrip (rev (Str.lstrip s))) as [|x t] eqn:Hl; [done|].
    pose proof (lstrip_head _ _ _ Hl) as Hx.
    simpl in Hstrip. rewrite <- Hstrip, last_last. done.
Qed.

End StrFacts.

(** ** Status buttons *)

Lemma lower_status_no_underscore (label : str) :
  label ∈ STATUS_OPTIONS → (95%N : N) ∉ Str.lower label.
Proof.
  unfold STATUS_OPTIONS. rewrite !elem_of_cons, elem_of_nil.
  intros [->|[->|[->|[->|[]]]]]; vm_compute; intros H;
    repeat (apply elem_of_cons in H as [H|H]; [discriminate H|]);
    by apply elem_of_nil in H.
Qed.

Lemma status_callback_data_join (n : N) (status : str) :
  status_callback_data (complaint_id_of n) status
  = Str.join [95%N]
      [Str.lit "status"; Str.lit "complaint"; Str.decimal n; Str.lower status].
Proof.
  unfold status_callback_data, complaint_id_of.
  rewrite <- !app_assoc. reflexivity.
Qed.

Lemma parse_status_callback_data (n : N) (status : str) :
  (95%N : N) ∉ Str.lower status →
  parse_status_data (status_callback_data (complaint_id_of n) status)
  = Some (complaint_id_of n, Str.lower status).
Proof.
  intros Hst. unfold parse_status_data.
  replace (Str.startswith (Str.lit "status_")
             (status_callback_data (complaint_id_of n) status)) with true
    by (symmetry; apply startswith_app).
  rewrite status_callback_data_join.
  change (Str.lit "_") with [95%N].
  rewrite split_join.
  - reflexivity.
  - done.
  - repeat apply Forall_cons_2; try apply Forall_nil_2; try done.
    + vm_compute. intros H.
      repeat (apply elem_of_cons in H as [H|H]; [discriminate H|]).
      by apply elem_of_nil in H.
    + vm_compute. intros H.
      repeat (apply elem_of_cons in H as [H|H]; [discriminate H|]).
      by apply elem_of_nil in H.
    + apply digits_no_underscore.
Qed.

Lemma status_keyboard_buttons (complaint_id label : str) :
  label ∈ STATUS_OPTIONS →
  (label, status_callback_data complaint_id label)
  ∈ concat (get_status_keyboard complaint_id).
Proof.
  unfold STATUS_OPTIONS. rewrite !elem_of_cons, elem_of_nil.
  intros [->|[->|[->|[->|[]]]]]; cbn [get_status_keyboard status_rows STATUS_OPTIONS
      Nat.add Nat.modulo Nat.eqb Nat.divmod fst snd Nat.sub app concat];
    rewrite !elem_of_cons; tauto.
Qed.

(** C10. For every id returned by [create_complaint] and every label of
    [STATUS_OPTIONS], the keyboard built for that id carries a button
    whose callback data is [status_<id>_<label in lower case>], and the
    admin handler's parsing of that data (split on underscores, middle
    parts rejoined, last part) gives back exactly the id and the lowered
    label. *)
Theorem status_button_roundtrip (s : bot) (user_id : Z) (username : option str)
    (batch subject lecture_name : option str) (photo_file_id label : str) :
  label ∈ STATUS_OPTIONS →
  let complaint_id :=
    (create_complaint s user_id username batch subject lecture_name photo_file_id).2 in
  (label, status_callback_data complaint_id label)
    ∈ concat (get_status_keyboard complaint_id)
  ∧ parse_status_data (status_callback_data complaint_id label)
    = Some (complaint_id, Str.lower label).
Proof.
  intros Hlabel. cbn [create_complaint snd]. split.
  - by apply status_keyboard_buttons.
  - apply parse_status_callback_data. by apply lower_status_no_underscore.
Qed.

Lemma status_button_roundtrip_witness :
  parse_status_data (Str.lit "status_complaint_1_approved")
  = Some (Str.lit "complaint_1", Str.lit "approved").
Proof.
  refine (proj2 (status_button_roundtrip initial 7 None None None None []
                   (Str.lit "Approved") _)).
  unfold STATUS_OPTIONS. rewrite !elem_of_cons. tauto.
Defined.

(** ** The conversation *)

Section Conversation.

Context `{Config}.

Lemma update_state_same (s : bot) (key : Z * Z) (st : conv_state) :
  conversations s !! key = Some st → update_state key (Next st) s = s.
Proof.
  intros Hst. destruct s as [uds cs cc convs]. unfold update_state, with_conversations.
  simpl in *. by rewrite insert_id.
Qed.

Lemma get_user_data_store (s : bot) (uid : Z) (key value : str) :
  get_user_data (store_user_data uid key value s) uid
  = <[key := value]> (get_user_data s uid).
Proof. unfold get_user_data, store_user_data. simpl. by rewrite lookup_insert_eq. Qed.

Lemma get_user_data_store_ne (s : bot) (uid uid' : Z) (key value : str) :
  uid ≠ uid' →
  get_user_data (store_user_data uid key value s) uid' = get_user_data s uid'.
Proof.
  intros Hne. unfold get_user_data, store_user_data. simpl.
  by rewrite lookup_insert_ne.
Qed.

Lemma get_user_data_update_state (s : bot) (key : Z * Z) (r : handler_result)
    (uid : Z) :
  get_user_data (update_state key r s) uid = get_user_data s uid.
Proof. by destruct r. Qed.

Lemma get_user_data_clear (s : bot) (uid : Z) :
  get_user_data (clear_user_data uid s) uid = ∅.
Proof. unfold get_user_data, clear_user_data. simpl. by rewrite lookup_delete_eq. Qed.

Lemma get_user_data_clear_ne (s : bot) (uid uid' : Z) :
  uid ≠ uid' → get_user_data (clear_user_data uid s) uid' = get_user_data s uid'.
Proof.
  intros Hne. unfold get_user_data, clear_user_data. simpl.
  by rewrite lookup_delete_ne.
Qed.

Lemma draft_ordered_empty : draft_ordered ∅.
Proof. unfold draft_ordered. rewrite !lookup_empty. by repeat split; intros [? ?]. Qed.

Lemma draft_ordered_batch (d : gmap str str) (v : str) :
  draft_ordered d → draft_ordered (<[Str.lit "batch" := v]> d).
Proof.
  intros (H1 & H2 & H3). unfold draft_ordered.
  rewrite lookup_insert_eq, !lookup_insert_ne by done. eauto.
Qed.

Lemma draft_ordered_subject (d : gmap str str) (v : str) :
  is_Some (d !! Str.lit "batch") →
  draft_ordered d → draft_ordered (<[Str.lit "subject" := v]> d).
Proof.
  intros Hb (H1 & H2 & H3). unfold draft_ordered.
  rewrite lookup_insert_eq, !lookup_insert_ne by done. eauto.
Qed.

Lemma draft_ordered_lecture_name (d : gmap str str) (v : str) :
  is_Some (d !! Str.lit "subject") →
  draft_ordered d → draft_ordered (<[Str.lit "lecture_name" := v]> d).
Proof.
  intros Hs (H1 & H2 & H3). unfold draft_ordered.
  rewrite lookup_insert_eq, !lookup_insert_ne by done. eauto.
Qed.

Lemma draft_ordered_complaint_id (d : gmap str str) (v : str) :
  is_Some (d !! Str.lit "lecture_name") →
  draft_ordered d → draft_ordered (<[Str.lit "complaint_id" := v]> d).
Proof.
  intros Hl (H1 & H2 & H3). unfold draft_ordered.
  rewrite lookup_insert_eq, !lookup_insert_ne by done. eauto.
Qed.

(** The handlers of a state run only in that state. *)
Lemma check_update_state (st : option conv_state) (p : payload) (h : callback) :
  check_update st p = Some h →
  match h with
  | BatchSelection => st = Some BATCH_SELECTION
  | SubjectSelection => st = Some SUBJECT_SELECTION
  | LectureName => st = Some LECTURE_NAME_INPUT
  | Screenshot => st = Some SCREENSHOT_UPLOAD
  | StartCommand | Cancel => True
  end.
Proof.
  unfold check_update, state_handlers.
  destruct (is_command (Str.lit "start") p); [by intros [=]; subst|].
  destruct st as [[]|]; try done;
    repeat case_match; intros [=]; subst; done.
Qed.

Lemma admin_status_handler_user_data (s : bot) (g : gateway) (chat_id : Z)
    (user : User.t)
    (data : str) :
  let s' := (admin_status_handler s g chat_id user data).1 in
  user_data_store s' = user_data_store s
  ∧ conversations s' = conversations s
  ∧ complaint_counter s' = complaint_counter s.
Proof.
  unfold admin_status_handler, update_complaint_status, get_complaint.
  destruct (negb _); [done|].
  destruct (parse_status_data data) as [[cid st]|]; [|done].
  destruct (complaint_store s !! cid); done.
Qed.

(** C8. In the lecture-name step, a text that is empty or all white
    space changes neither the stores nor the conversation state and the
    handler answers with the re-prompt.  For any other text the value
    stored under [lecture_name] is the text without the white space
    around it (the text is that value between two runs of white space,
    and the value is not empty and neither begins nor ends with white
    space), and the conversation moves to the photo step. *)
Theorem lecture_name_validation (s : bot) (g : gateway) (chat_id : Z)
    (user : User.t) (text : str) :
  conversations s !! (chat_id, User.id user) = Some LECTURE_NAME_INPUT →
  let u :=
    {| effective_user := user; effective_chat := chat_id; content := Text text |} in
  (all_whitespace text = true →
     lecture_name_handler s chat_id user text
     = (s, [reply_text chat_id InvalidLectureNameMsg None],
        Next LECTURE_NAME_INPUT)
     ∧ (process_update s g u).1 = s
     ∧ (text ≠ [] →
        (process_update s g u).2
        = [reply_text chat_id InvalidLectureNameMsg None]))
  ∧ (all_whitespace text = false →
     let s' := (process_update s g u).1 in
     ∃ name before after : str,
       text = before ++ name ++ after
       ∧ all_whitespace before = true ∧ all_whitespace after = true
       ∧ name ≠ [] ∧ trimmed name
       ∧ name = Str.strip text
       ∧ s' = update_state (chat_id, User.id user) (Next SCREENSHOT_UPLOAD)
                (store_user_data (User.id user) (Str.lit "lecture_name") name s)
       ∧ get_user_data s' (User.id user) !! Str.lit "lecture_name" = Some name
       ∧ conversations s' !! (chat_id, User.id user) = Some SCREENSHOT_UPLOAD).
Proof.
  intros Hconv u. split.
  - intros Hws. apply strip_nil_iff in Hws.
    assert (Hh : lecture_name_handler s chat_id user text
                 = (s, [reply_text chat_id InvalidLectureNameMsg None],
                    Next LECTURE_NAME_INPUT))
      by (unfold lecture_name_handler; by rewrite Hws).
    split; [done|].
    unfold process_update, conversation_handler, check_update. simpl.
    rewrite Hconv. simpl.
    destruct text as [|c text]; simpl; [by split|].
    rewrite Hh. simpl. split; [|done].
    change (with_conversations _ s)
      with (update_state (chat_id, User.id user) (Next LECTURE_NAME_INPUT) s).
    by apply update_state_same.
  - intros Hws s'.
    assert (Hne : Str.strip text ≠ []).
    { intros Hnil. apply strip_nil_iff in Hnil. congruence. }
    assert (Htext : text ≠ []) by (intros ->; discriminate Hws).
    assert (Hs' : s' = update_state (chat_id, User.id user) (Next SCREENSHOT_UPLOAD)
                         (store_user_data (User.id user) (Str.lit "lecture_name")
                            (Str.strip text) s)).
    { unfold s', process_update, conversation_handler, check_update. simpl.
      rewrite Hconv. simpl.
      destruct text as [|c text]; [done|]. simpl.
      unfold lecture_name_handler.
      destruct (Str.strip (c :: text)) as [|c' t'] eqn:Hstrip; [done|].
      reflexivity. }
    destruct (lstrip_split text) as (before & Hbefore & Hws1).
    destruct (rstrip_split (Str.lstrip text)) as (after & Hafter & Hws2).
    fold (Str.strip text) in Hafter.
    exists (Str.strip text), before, after.
    split; [by rewrite <- Hafter|]. split; [done|]. split; [done|].
    split; [done|]. split; [apply strip_trimmed|]. split; [done|].
    split; [done|]. rewrite Hs'. split.
    + rewrite get_user_data_update_state, get_user_data_store.
      by rewrite lookup_insert_eq.
    + simpl. by rewrite lookup_insert_eq.
Qed.

Lemma flow_inv_update (home : Z → Z) (s s1 : bot) (uid0 : Z) :
  flow_inv home s →
  (∀ uid, uid ≠ uid0 →
     get_user_data s1 uid = get_user_data s uid
     ∧ conversations s1 !! (home uid, uid) = conversations s !! (home uid, uid)) →
  draft_ordered (get_user_data s1 uid0) →
  step_fields (conversations s1 !! (home uid0, uid0)) (get_user_data s1 uid0) →
  flow_inv home s1.
Proof.
  intros Hinv Hothers Hord Hstep uid.
  destruct (decide (uid = uid0)) as [->|Hne]; [done|].
  destruct (Hothers uid Hne) as [-> ->]. apply Hinv.
Qed.

Ltac other_users :=
  let uid := fresh "uid" in
  let Hne := fresh "Hne" in
  intros uid Hne; unfold get_user_data; simpl;
  rewrite ?lookup_insert_ne, ?lookup_delete_ne by congruence;
  rewrite ?lookup_insert_ne, ?lookup_delete_ne by congruence; done.

Ltac this_user :=
  unfold get_user_data; simpl;
  rewrite ?lookup_insert_eq, ?lookup_delete_eq; simpl.

Lemma flow_inv_step (home : Z → Z) (s : bot) (g : gateway) (u : Update) :
  flow_inv home s →
  effective_chat u = home (User.id (effective_user u)) →
  flow_inv home (process_update s g u).1.
Proof.
  intros Hinv Hchat. unfold process_update, conversation_handler.
  rewrite Hchat.
  destruct (check_update _ (content u)) as [h|] eqn:Hcheck.
  - apply check_update_state in Hcheck.
    pose proof (Hinv (User.id (effective_user u))) as [Hord Hstep].
    destruct h; cbn [run_callback].
    + unfold start_command. cbn [fst].
      apply (flow_inv_update home s _ (User.id (effective_user u)));
        [done|other_users|..]; this_user.
      * apply draft_ordered_empty.
      * done.
    + unfold batch_selection_handler.
      repeat case_match; simplify_eq; cbn [fst].
      * rewrite update_state_same by done. done.
      * apply (flow_inv_update home s _ (User.id (effective_user u)));
        [done|other_users|..]; this_user.
        -- by apply draft_ordered_batch.
        -- by rewrite lookup_insert_eq.
      * rewrite update_state_same by done. done.
    + unfold subject_selection_handler.
      rewrite Hcheck in Hstep. simpl in Hstep.
      repeat case_match; simplify_eq; cbn [fst].
      * apply (flow_inv_update home s _ (User.id (effective_user u)));
        [done|other_users|..]; this_user.
        -- by apply draft_ordered_subject.
        -- rewrite lookup_insert_eq, lookup_insert_ne by done. by split.
      * rewrite update_state_same by done. done.
    + unfold lecture_name_handler.
      rewrite Hcheck in Hstep. simpl in Hstep. destruct Hstep as [Hb Hs].
      repeat case_match; simplify_eq; cbn [fst].
      * rewrite update_state_same by done. done.
      * apply (flow_inv_update home s _ (User.id (effective_user u)));
        [done|other_users|..]; this_user.
        -- by apply draft_ordered_lecture_name.
        -- rewrite lookup_insert_eq, !lookup_insert_ne by done. by repeat split.
    + unfold screenshot_handler, create_complaint.
      repeat case_match; simplify_eq; cbn [fst].
      * rewrite update_state_same by done. done.
      * apply (flow_inv_update home s _ (User.id (effective_user u)));
        [done|other_users|..]; this_user.
        -- apply draft_ordered_empty.
        -- done.
    + unfold cancel_handler. cbn [fst].
      apply (flow_inv_update home s _ (User.id (effective_user u)));
        [done|other_users|..]; this_user.
      * apply draft_ordered_empty.
      * done.
  - destruct (callback_matches _ _).
    + destruct (admin_status_handler_user_data s g
                  (home (User.id (effective_user u))) (effective_user u)
                  (callback_data (content u))) as (Hu & Hc & _).
      intros uid. unfold get_user_data. rewrite Hu, Hc. apply Hinv.
    + destruct (content u); apply Hinv.
Qed.

Lemma flow_inv_run (home : Z → Z) (updates : list (gateway * Update)) (s : bot) :
  flow_inv home s → one_chat home updates → flow_inv home (run s updates).
Proof.
  revert s. induction updates as [|[g u] updates IH]; intros s Hinv Hone; [done|].
  apply Forall_cons in Hone as [Hu Hrest].
  simpl. apply IH; [|done]. by apply flow_inv_step.
Qed.

Lemma flow_inv_initial (home : Z → Z) : flow_inv home initial.
Proof.
  intros uid. unfold get_user_data. simpl. rewrite !lookup_empty. simpl.
  split; [apply draft_ordered_empty|done].
Qed.

Lemma skipped_step_unchanged (s : bot) (g : gateway) (u : Update) :
  is_any_command (content u) = false →
  step_input (conversations s !! (effective_chat u, User.id (effective_user u)))
    (content u) = false →
  user_data_store (process_update s g u).1 = user_data_store s
  ∧ conversations (process_update s g u).1 = conversations s.
Proof.
  intros Hcmd Hskip. unfold process_update, conversation_handler, check_update.
  set (key := (effective_chat u, User.id (effective_user u))) in *.
  pose proof (admin_status_handler_user_data s g (effective_chat u) (effective_user u)
                (callback_data (content u))) as (Hau & Hac & _).
  destruct (content u) as [name|text|photo| |data] eqn:Hcontent;
    [done|..]; cbn [is_command].
  all: destruct (conversations s !! key) as [[]|] eqn:Hst;
    cbn [state_handlers callback_matches text_not_command is_photo existsb
         step_input orb] in *; try done.
  all: repeat (case_match; simplify_eq; try done).
  all: cbn [run_callback] in *; rewrite ?Hcontent in *;
    cbn [message_text message_photo callback_data] in *.
  all: unfold batch_selection_handler, lecture_name_handler, screenshot_handler,
         subject_selection_handler in *.
  all: repeat (case_match; simplify_eq; try done).
  all: try (rewrite update_state_same by done; done).
  simplify_eq. cbn [fst]. rewrite update_state_same by done. done.
Qed.

(** C3, as the code has it.  The conversation is filed under the chat
    and the user, the draft under the user alone.  When every user's
    updates all come from one chat, every draft has its fields filled in
    order, whatever the updates: [subject] only with [batch],
    [lecture_name] only with [subject], and the key written by the photo
    step only with [lecture_name].  In every case, an update that is not
    a command and is not the input of its conversation's current step (a
    photo or a text in the batch step, a subject button in the batch
    step, ...) leaves every draft and every conversation state as it
    was. *)
Theorem draft_filled_in_order :
  (∀ (home : Z → Z) (updates : list (gateway * Update)) (uid : Z),
     one_chat home updates →
     draft_ordered (get_user_data (run initial updates) uid))
  ∧ (∀ (s : bot) (g : gateway) (u : Update),
       is_any_command (content u) = false →
       step_input (conversations s !! (effective_chat u, User.id (effective_user u)))
         (content u)
       = false →
       user_data_store (process_update s g u).1 = user_data_store s
       ∧ conversations (process_update s g u).1 = conversations s).
Proof.
  split.
  - intros home updates uid Hone.
    apply (flow_inv_run home updates initial (flow_inv_initial home) Hone).
  - apply skipped_step_unchanged.
Qed.

(** ** The complaint store *)

(** What handling one update does to the complaint store and the
    counter: nothing, one status overwritten, or one complaint added
    under the next id. *)
Lemma process_update_complaints (s : bot) (g : gateway) (u : Update) :
  let s' := (process_update s g u).1 in
  (complaint_store s' = complaint_store s
   ∧ complaint_counter s' = complaint_counter s)
  ∨ (∃ cid st c,
       parse_status_data (callback_data (content u)) = Some (cid, st)
       ∧ complaint_store s !! cid = Some c
       ∧ complaint_store s' = <[cid := Complaint.set_status st c]> (complaint_store s)
       ∧ complaint_counter s' = complaint_counter s)
  ∨ (∃ c,
       Complaint.id c = complaint_id_of (complaint_counter s + 1)
       ∧ Complaint.status c = Str.lit "submitted"
       ∧ complaint_store s'
         = <[complaint_id_of (complaint_counter s + 1) := c]> (complaint_store s)
       ∧ complaint_counter s' = (complaint_counter s + 1)%N).
Proof.
  unfold process_update, conversation_handler.
  destruct (check_update _ _) as [h|].
  - destruct h; cbn [run_callback];
      unfold start_command, batch_selection_handler, subject_selection_handler,
        lecture_name_handler, screenshot_handler, create_complaint, cancel_handler;
      repeat case_match; simplify_eq; cbn [fst];
      try (by left).
    right; right. eexists. by repeat split.
  - destruct (callback_matches _ _).
    + unfold admin_status_handler, update_complaint_status, get_complaint.
      destruct (negb _); [by left|].
      destruct (parse_status_data _) as [[cid st]|] eqn:Hparse; [|by left].
      destruct (complaint_store s !! cid) as [c|] eqn:Hc; [|by left].
      right; left. by exists cid, st, c.
    + left. by destruct (content u).
Qed.

Lemma counter_mono_step (s : bot) (g : gateway) (u : Update) :
  (complaint_counter s ≤ complaint_counter (process_update s g u).1)%N.
Proof.
  destruct (process_update_complaints s g u)
    as [[_ ->]|[(cid & st & c & _ & _ & _ & ->)|(c & _ & _ & _ & ->)]]; lia.
Qed.

Lemma counter_mono_op (s s' : bot) :
  op_step s s' → (complaint_counter s ≤ complaint_counter s')%N.
Proof.
  intros Hop. destruct Hop; simpl; try lia.
  - unfold update_complaint_status. destruct (complaint_store s !! _); simpl; lia.
  - destruct r; simpl; lia.
  - apply counter_mono_step.
Qed.

Lemma counter_mono_rtc (s s' : bot) :
  rtc op_step s s' → (complaint_counter s ≤ complaint_counter s')%N.
Proof.
  induction 1 as [|s1 s2 s3 Hop _ IH]; [lia|].
  apply counter_mono_op in Hop. lia.
Qed.

Lemma id_number_complaint_id_of (n : N) : id_number (complaint_id_of n) = Some n.
Proof.
  unfold id_number, complaint_id_of. rewrite startswith_app.
  change (drop 10 (Str.lit "complaint_" ++ Str.decimal n)) with (Str.decimal n).
  unfold Str.decimal. rewrite undigits_digits. simpl.
  by rewrite Unsigned.of_to.
Qed.

Lemma complaint_id_of_inj (m n : N) : complaint_id_of m = complaint_id_of n → m = n.
Proof.
  intros Heq. apply (f_equal id_number) in Heq.
  rewrite !id_number_complaint_id_of in Heq. congruence.
Qed.

(** C5. Of two calls of [create_complaint], with any state changes of
    the program in between, the later one returns a different id, and
    the number [N] in its [complaint_N] is strictly greater. *)
Theorem complaint_ids_increase (s s' : bot) (user_id user_id' : Z)
    (username username' batch batch' subject subject' : option str)
    (lecture_name lecture_name' : option str) (photo_file_id photo_file_id' : str) :
  let first :=
    create_complaint s user_id username batch subject lecture_name photo_file_id in
  rtc op_step first.1 s' →
  let second :=
    create_complaint s' user_id' username' batch' subject' lecture_name'
      photo_file_id' in
  first.2 ≠ second.2
  ∧ ∃ n n' : N,
      id_number first.2 = Some n ∧ id_number second.2 = Some n' ∧ (n < n')%N.
Proof.
  intros first Hrtc second. apply counter_mono_rtc in Hrtc.
  cbn [first second create_complaint fst snd complaint_counter] in *.
  assert (Hlt : (complaint_counter s + 1 < complaint_counter s' + 1)%N) by lia.
  split.
  - intros Heq. apply complaint_id_of_inj in Heq. lia.
  - exists (complaint_counter s + 1)%N, (complaint_counter s' + 1)%N.
    by rewrite !id_number_complaint_id_of.
Qed.

(** The ids themselves are strings, and Python's order on strings does
    not follow the counter: [complaint_10 < complaint_9]. *)
Remark complaint_id_strings_not_ordered :
  Str.ltb (complaint_id_of 10) (complaint_id_of 9) = true.
Proof. reflexivity. Qed.

Lemma ids_inv_step (s : bot) (g : gateway) (u : Update) :
  ids_inv s → ids_inv (process_update s g u).1.
Proof.
  intros Hinv.
  destruct (process_update_complaints s g u)
    as [[Hs Hc]|[(cid & st & c & _ & Hcid & Hs & Hc)|(c & Hid & _ & Hs & Hc)]];
    intros k c' Hk; rewrite Hs in Hk; rewrite Hc.
  - by apply Hinv.
  - destruct (decide (cid = k)) as [->|Hne].
    + rewrite lookup_insert_eq in Hk. simplify_eq.
      change (Complaint.id (Complaint.set_status st c)) with (Complaint.id c).
      by apply Hinv.
    + rewrite lookup_insert_ne in Hk by done. by apply Hinv.
  - destruct (decide (complaint_id_of (complaint_counter s + 1) = k)) as [<-|Hne].
    + rewrite lookup_insert_eq in Hk. simplify_eq. split; [done|].
      exists (complaint_counter s + 1)%N. split; [lia|done].
    + rewrite lookup_insert_ne in Hk by done.
      destruct (Hinv k c' Hk) as (Hid' & n & Hn & Hkn).
      split; [done|]. exists n. split; [lia|done].
Qed.

Lemma ids_inv_run (updates : list (gateway * Update)) (s : bot) :
  ids_inv s → ids_inv (run s updates).
Proof.
  revert s. induction updates as [|[g u] updates IH]; intros s Hinv; [done|].
  simpl. apply IH. by apply ids_inv_step.
Qed.

Lemma ids_inv_initial : ids_inv initial.
Proof. intros k c Hk. simpl in Hk. by rewrite lookup_empty in Hk. Qed.

(** The id the counter gives next is not in the store yet. *)
Lemma next_id_fresh (s : bot) :
  ids_inv s →
  complaint_store s !! complaint_id_of (complaint_counter s + 1) = None.
Proof.
  intros Hinv.
  destruct (complaint_store s !! _) as [c|] eqn:Hc; [|done].
  destruct (Hinv _ _ Hc) as (_ & n & Hn & Heq).
  apply complaint_id_of_inj in Heq. lia.
Qed.

Lemma last_cons_default {A} (l : list A) (x d d' : A) :
  List.last (x :: l) d = List.last (x :: l) d'.
Proof.
  revert x. induction l as [|y l IH]; intros x; [done|].
  change (List.last (x :: y :: l) d) with (List.last (y :: l) d).
  change (List.last (x :: y :: l) d') with (List.last (y :: l) d').
  apply IH.
Qed.

Lemma last_elem_of {A} (l : list A) (x d : A) : List.last (x :: l) d ∈ x :: l.
Proof.
  destruct (exists_last (l := x :: l)) as (l' & a & Heq); [done|].
  rewrite Heq, last_last. apply elem_of_app. right. apply list_elem_of_here.
Qed.

(** In a list of variants given smallest first, the last is a largest. *)
Lemma last_is_largest (photo : list PhotoSize.t) (first : PhotoSize.t) :
  ascending (first :: photo) →
  Forall (fun p => resolution p ≤ resolution (List.last (first :: photo) first))
    (first :: photo).
Proof.
  revert first. induction photo as [|q photo IH]; intros first Hasc.
  - by repeat constructor.
  - apply StronglySorted_inv in Hasc as [Hrest Hfirst].
    specialize (IH q Hrest).
    change (List.last (first :: q :: photo) first) with (List.last (q :: photo) first).
    rewrite (last_cons_default photo q first q).
    constructor; [|done].
    rewrite Forall_forall in Hfirst. apply Hfirst, last_elem_of.
Qed.

(** C4. When a user in the photo step sends an image (its variants
    listed smallest first), one complaint is added to the store under a
    fresh id: its batch, subject and lecture name are what the user's
    draft holds under these keys, its photo reference is that of a
    largest variant, its status is [submitted].  Afterwards the user has
    no draft and the conversation is over, and the photo is sent to the
    admin chat, followed (when that call returns) by the complaint's
    summary with the status buttons.  When every user's updates all come
    from one chat, the draft holds all three values at that point. *)
Theorem screenshot_creates_complaint (updates : list (gateway * Update))
    (g : gateway) (chat_id : Z) (user : User.t) (photo : list PhotoSize.t) :
  let s := run initial updates in
  let u :=
    {| effective_user := user; effective_chat := chat_id; content := Photo photo |} in
  let s' := (process_update s g u).1 in
  let actions := (process_update s g u).2 in
  conversations s !! (chat_id, User.id user) = Some SCREENSHOT_UPLOAD →
  photo ≠ [] →
  ascending photo →
  ∃ (c : Complaint.t) (largest : PhotoSize.t),
    complaint_store s !! Complaint.id c = None
    ∧ complaint_store s' = <[Complaint.id c := c]> (complaint_store s)
    ∧ size (complaint_store s') = S (size (complaint_store s))
    ∧ Complaint.user_id c = User.id user
    ∧ Complaint.username c = User.username user
    ∧ Complaint.batch c = get_user_data s (User.id user) !! Str.lit "batch"
    ∧ Complaint.subject c = get_user_data s (User.id user) !! Str.lit "subject"
    ∧ Complaint.lecture_name c
      = get_user_data s (User.id user) !! Str.lit "lecture_name"
    ∧ (∀ home : Z → Z,
         one_chat home updates → chat_id = home (User.id user) →
         is_Some (Complaint.batch c) ∧ is_Some (Complaint.subject c)
         ∧ is_Some (Complaint.lecture_name c))
    ∧ largest ∈ photo
    ∧ Forall (fun p => resolution p ≤ resolution largest) photo
    ∧ Complaint.photo_file_id c = PhotoSize.file_id largest
    ∧ Complaint.status c = Str.lit "submitted"
    ∧ user_data_store s' !! User.id user = None
    ∧ conversations s' !! (chat_id, User.id user) = None
    ∧ send_photo ADMIN_CHAT_ID (Complaint.photo_file_id c) ∈ actions
    ∧ (send_photo_ok g = true →
       send_message ADMIN_CHAT_ID (format_complaint_message c)
         (Some (get_status_keyboard (Complaint.id c))) ∈ actions).
Proof.
  intros s u s' actions Hconv Hphoto Hasc.
  pose proof (ids_inv_run updates initial ids_inv_initial) as Hids.
  assert (Hfields : ∀ home : Z → Z,
            one_chat home updates → chat_id = home (User.id user) →
            is_Some (get_user_data s (User.id user) !! Str.lit "batch")
            ∧ is_Some (get_user_data s (User.id user) !! Str.lit "subject")
            ∧ is_Some (get_user_data s (User.id user) !! Str.lit "lecture_name")).
  { intros home Hone Hhome.
    pose proof (flow_inv_run home updates initial (flow_inv_initial home) Hone
                  (User.id user)) as [_ Hf].
    fold s in Hf. rewrite <- Hhome, Hconv in Hf. exact Hf. }
  fold s in Hids.
  destruct photo as [|first photo]; [done|].
  pose proof (next_id_fresh s Hids) as Hfresh.
  subst s' actions u.
  unfold process_update, conversation_handler, check_update.
  cbn [content effective_user effective_chat is_command]. rewrite Hconv.
  cbn [state_handlers is_photo run_callback content effective_user effective_chat message_photo].
  unfold screenshot_handler, create_complaint, send_complaint_to_admin, get_complaint.
  cbn [fst snd update_state store_user_data clear_user_data with_user_data
       with_conversations complaint_store user_data_store conversations
       Str.item_m1].
  rewrite lookup_insert_eq.
  exists
    {| Complaint.id := complaint_id_of (complaint_counter s + 1);
       Complaint.user_id := User.id user;
       Complaint.username := User.username user;
       Complaint.batch := get_user_data s (User.id user) !! Str.lit "batch";
       Complaint.subject := get_user_data s (User.id user) !! Str.lit "subject";
       Complaint.lecture_name :=
         get_user_data s (User.id user) !! Str.lit "lecture_name";
       Complaint.photo_file_id :=
         PhotoSize.file_id (List.last (first :: photo) first);
       Complaint.status := Str.lit "submitted";
       Complaint.created_at := None |},
    (List.last (first :: photo) first).
  cbn [Complaint.id Complaint.user_id Complaint.batch Complaint.subject
       Complaint.lecture_name Complaint.photo_file_id Complaint.status
       format_complaint_message].
  split; [done|]. split; [done|].
  split; [by apply map_size_insert_None|].
  do 5 (split; [done|]).
  split; [exact Hfields|].
  split; [apply last_elem_of|].
  split; [by apply last_is_largest|].
  do 2 (split; [done|]).
  do 2 (split; [apply lookup_delete_eq|]).
  split; [rewrite !elem_of_cons; tauto|].
  intros ->. rewrite !elem_of_cons. tauto.
Qed.

(** ** The status workflow *)

Lemma status_prefix_exclusive (data : str) :
  Str.startswith (Str.lit "status_") data = true →
  Str.startswith (Str.lit "batch_") data = false
  ∧ Str.startswith (Str.lit "restart") data = false
  ∧ Str.startswith (Str.lit "subject_") data = false.
Proof.
  assert (Str.lit "status_" = [115; 116; 97; 116; 117; 115; 95]%N) as -> by done.
  assert (Str.lit "batch_" = [98; 97; 116; 99; 104; 95]%N) as -> by done.
  assert (Str.lit "restart" = [114; 101; 115; 116; 97; 114; 116]%N) as -> by done.
  assert (Str.lit "subject_" = [115; 117; 98; 106; 101; 99; 116; 95]%N) as -> by done.
  destruct data as [|c1 [|c2 data]]; cbn [Str.startswith].
  - done.
  - by destruct (115 =? c1)%N.
  - destruct (N.eqb_spec 115 c1) as [<-|]; [|done].
    destruct (N.eqb_spec 116 c2) as [<-|]; [|done].
    done.
Qed.

(** A status button press is never taken by the conversation handler:
    it goes to [admin_status_handler], whatever step the user is in. *)
Lemma status_update_routed (s : bot) (g : gateway)
    (chat_id : Z) (user : User.t) (data : str) :
  Str.startswith (Str.lit "status_") data = true →
  process_update s g {| effective_user := user; effective_chat := chat_id;
                        content := CallbackQuery data |}
  = admin_status_handler s g chat_id user data.
Proof.
  intros Hst. destruct (status_prefix_exclusive data Hst) as (Hb & Hr & Hsu).
  unfold process_update, conversation_handler, check_update.
  cbn [content effective_user effective_chat is_command callback_data].
  destruct (conversations s !! (chat_id, User.id user)) as [[]|];
    cbn [state_handlers callback_matches existsb text_not_command is_photo];
    rewrite ?Hb, ?Hr, ?Hsu, ?Hst; done.
Qed.

Lemma parse_status_data_prefix (data complaint_id new_status : str) :
  parse_status_data data = Some (complaint_id, new_status) →
  Str.startswith (Str.lit "status_") data = true.
Proof. unfold parse_status_data. by destruct (Str.startswith _ data). Qed.

(** C6. A status button pressed by anyone but the admin changes nothing
    (the whole state, complaint store included, is as before) and the
    only outbound call is the alert that the user is not authorized. *)
Theorem non_admin_status_update_rejected (s : bot) (g : gateway)
    (chat_id : Z) (user : User.t)
    (data : str) :
  User.id user ≠ ADMIN_CHAT_ID →
  Str.startswith (Str.lit "status_") data = true →
  admin_status_handler s g chat_id user data = (s, [answer (Some NotAuthorizedMsg)])
  ∧ process_update s g {| effective_user := user; effective_chat := chat_id;
                          content := CallbackQuery data |}
    = (s, [answer (Some NotAuthorizedMsg)])
  ∧ complaint_store
      (process_update s g
         {| effective_user := user; effective_chat := chat_id;
            content := CallbackQuery data |}).1
    = complaint_store s.
Proof.
  intros Hne Hst.
  assert (Hh : admin_status_handler s g chat_id user data
               = (s, [answer (Some NotAuthorizedMsg)])).
  { unfold admin_status_handler, is_admin.
    destruct (Z.eqb_spec (User.id user) ADMIN_CHAT_ID); done. }
  rewrite status_update_routed by done. by rewrite Hh.
Qed.

(** C7. A status update by the admin on an id that is not in the store
    changes nothing: the state is as before, the admin is told that the
    complaint was not found, and [update_complaint_status] on such an id
    returns [False] and leaves the state alone. *)
Theorem status_update_unknown_id (s : bot) (g : gateway) (chat_id : Z) (user : User.t)
    (data complaint_id new_status : str) :
  User.id user = ADMIN_CHAT_ID →
  parse_status_data data = Some (complaint_id, new_status) →
  complaint_store s !! complaint_id = None →
  process_update s g {| effective_user := user; effective_chat := chat_id;
                        content := CallbackQuery data |}
  = (s, [answer None; reply_text chat_id NotFoundMsg None])
  ∧ update_complaint_status s complaint_id new_status = (s, false).
Proof.
  intros Hadmin Hparse Hnone. split.
  - rewrite status_update_routed by (by eapply parse_status_data_prefix).
    unfold admin_status_handler, is_admin, get_complaint.
    rewrite Hadmin, Z.eqb_refl, Hparse, Hnone. done.
  - unfold update_complaint_status. by rewrite Hnone.
Qed.

(** C9. When the admin updates the status of a stored complaint and the
    message to its submitter cannot be sent, the store keeps the new
    status, and the admin is told that the status was updated but the
    user could not be notified. *)
Theorem notification_failure_keeps_status (s : bot) (g : gateway)
    (chat_id : Z) (user : User.t)
    (data complaint_id new_status : str) (c : Complaint.t) :
  User.id user = ADMIN_CHAT_ID →
  parse_status_data data = Some (complaint_id, new_status) →
  complaint_store s !! complaint_id = Some c →
  send_message_ok g = false →
  let r :=
    process_update s g {| effective_user := user; effective_chat := chat_id;
                          content := CallbackQuery data |} in
  complaint_store r.1
  = <[complaint_id := Complaint.set_status new_status c]> (complaint_store s)
  ∧ Complaint.status <$> (complaint_store r.1 !! complaint_id) = Some new_status
  ∧ r.2
    = [answer None;
       send_message (Complaint.user_id c)
         (StatusChangedMsg complaint_id new_status (Complaint.subject c)
            (Complaint.lecture_name c)) None;
       reply_text chat_id (StatusUpdatedNotNotifiedMsg new_status) None].
Proof.
  intros Hadmin Hparse Hc Hfail r. subst r.
  rewrite status_update_routed by (by eapply parse_status_data_prefix).
  unfold admin_status_handler, is_admin, get_complaint, update_complaint_status.
  rewrite Hadmin, Z.eqb_refl, Hparse, Hc, Hfail. cbn [negb fst snd complaint_store].
  rewrite lookup_insert_eq. done.
Qed.

Lemma lowered_options_are_statuses (st : str) :
  st ∈ map Str.lower STATUS_OPTIONS → st ∈ STATUSES.
Proof.
  change (map Str.lower STATUS_OPTIONS)
    with [Str.lit "send"; Str.lit "seen"; Str.lit "approved"; Str.lit "resolved"].
  unfold STATUSES. rewrite !elem_of_cons. tauto.
Qed.

Lemma statuses_valid_step (s : bot) (g : gateway) (u : Update) :
  statuses_valid s → status_token_ok (g, u) = true →
  statuses_valid (process_update s g u).1.
Proof.
  intros Hinv Hok.
  destruct (process_update_complaints s g u)
    as [[Hs _]|[(cid & st & c & Hparse & Hcid & Hs & _)|(c & _ & Hst & Hs & _)]];
    intros k c' Hk; rewrite Hs in Hk.
  - by apply (Hinv k).
  - destruct (decide (cid = k)) as [->|Hne].
    + rewrite lookup_insert_eq in Hk. simplify_eq.
      unfold status_token_ok in Hok. cbn [snd] in Hok. rewrite Hparse in Hok.
      apply bool_decide_eq_true in Hok. by apply lowered_options_are_statuses.
    + rewrite lookup_insert_ne in Hk by done. by apply (Hinv k).
  - destruct (decide (complaint_id_of (complaint_counter s + 1) = k)) as [<-|Hne].
    + rewrite lookup_insert_eq in Hk. simplify_eq. rewrite Hst.
      unfold STATUSES. apply list_elem_of_here.
    + rewrite lookup_insert_ne in Hk by done. by apply (Hinv k).
Qed.

Lemma statuses_valid_run (updates : list (gateway * Update)) (s : bot) :
  statuses_valid s → forallb status_token_ok updates = true →
  statuses_valid (run s updates).
Proof.
  revert s. induction updates as [|[g u] updates IH]; intros s Hinv Hok; [done|].
  simpl in Hok. apply andb_true_iff in Hok as [Hgu Hrest].
  simpl. apply IH; [|done]. by apply statuses_valid_step.
Qed.

(** C2, as the code has it.  [create_complaint] stores [submitted] and a
    status update stores the token it is given, unchecked; so every
    stored status is in the enumeration as long as every status button
    press carries one of the keyboard's tokens. *)
Theorem statuses_valid_for_keyboard_tokens :
  (∀ updates : list (gateway * Update),
     forallb status_token_ok updates = true →
     statuses_valid (run initial updates))
  ∧ (∀ (s : bot) (complaint_id new_status : str) (c : Complaint.t),
       complaint_store s !! complaint_id = Some c →
       Complaint.status
         <$> (complaint_store (update_complaint_status s complaint_id new_status).1
              !! complaint_id)
       = Some new_status).
Proof.
  split.
  - intros updates Hok. apply statuses_valid_run; [|done].
    intros k c Hk. simpl in Hk. by rewrite lookup_empty in Hk.
  - intros s cid st c Hc. unfold update_complaint_status. rewrite Hc.
    cbn [fst complaint_store]. by rewrite lookup_insert_eq.
Qed.

(** ** Batch selection *)

Lemma batch_data_not_restart (data : str) :
  Str.startswith (Str.lit "batch_") data = true → data ≠ Str.lit "restart".
Proof. by intros Hb ->. Qed.

(** The value a batch button press stands for. *)
Lemma batch_buttons_decode (batch : str) :
  batch ∈ BATCHES →
  let data := Str.lit "batch_" ++ Str.replace (Str.lit " ") (Str.lit "_") batch in
  [(batch, data)] ∈ get_batch_keyboard
  ∧ Str.startswith (Str.lit "batch_") data = true
  ∧ Str.replace (Str.lit "_") (Str.lit " ")
      (Str.replace (Str.lit "batch_") (Str.lit "") data) = batch.
Proof.
  unfold BATCHES. rewrite !elem_of_cons, elem_of_nil.
  intros [->|[->|[->|[]]]]; (split; [|by vm_compute]);
    unfold get_batch_keyboard, BATCHES; cbn [map]; rewrite !elem_of_cons; tauto.
Qed.

Lemma batch_keyboard_rows (row : list (str * str)) :
  row ∈ get_batch_keyboard →
  ∃ b : str,
    b ∈ BATCHES
    ∧ row = [(b, Str.lit "batch_" ++ Str.replace (Str.lit " ") (Str.lit "_") b)].
Proof.
  unfold get_batch_keyboard. rewrite list_elem_of_In, in_map_iff.
  intros (b & <- & Hb). exists b. by rewrite list_elem_of_In.
Qed.

(** C1, as the code has it.  In the batch step a button press whose data
    starts with [batch_] is accepted whatever follows the prefix: the
    data with [batch_] removed and underscores turned into spaces is
    written to the draft and the conversation moves to the subject step.
    A press whose data does not start with [batch_] leaves drafts and
    conversation states alone.  The buttons offered stand for exactly
    the batches of [BATCHES]: each batch has its button, which reads back
    as that batch, and every button of the keyboard is the button of a
    batch of the list. *)
Theorem batch_selection_accepts_prefix (s : bot) (g : gateway)
    (chat_id : Z) (user : User.t)
    (data : str) :
  conversations s !! (chat_id, User.id user) = Some BATCH_SELECTION →
  let r :=
    process_update s g {| effective_user := user; effective_chat := chat_id;
                          content := CallbackQuery data |} in
  let batch :=
    Str.replace (Str.lit "_") (Str.lit " ")
      (Str.replace (Str.lit "batch_") (Str.lit "") data) in
  (Str.startswith (Str.lit "batch_") data = true →
     r.1 = update_state (chat_id, User.id user) (Next SUBJECT_SELECTION)
             (store_user_data (User.id user) (Str.lit "batch") batch s)
     ∧ get_user_data r.1 (User.id user) !! Str.lit "batch" = Some batch
     ∧ conversations r.1 !! (chat_id, User.id user) = Some SUBJECT_SELECTION
     ∧ r.2 = [answer None;
              reply_text chat_id (BatchSelectedMsg batch)
                (Some get_subject_keyboard)])
  ∧ (Str.startswith (Str.lit "batch_") data = false →
     user_data_store r.1 = user_data_store s
     ∧ conversations r.1 = conversations s)
  ∧ (∀ b : str, b ∈ BATCHES →
       let button := Str.lit "batch_" ++ Str.replace (Str.lit " ") (Str.lit "_") b in
       [(b, button)] ∈ get_batch_keyboard
       ∧ Str.startswith (Str.lit "batch_") button = true
       ∧ Str.replace (Str.lit "_") (Str.lit " ")
           (Str.replace (Str.lit "batch_") (Str.lit "") button) = b)
  ∧ (∀ row : list (str * str), row ∈ get_batch_keyboard →
       ∃ b : str,
         b ∈ BATCHES
         ∧ row = [(b, Str.lit "batch_"
                        ++ Str.replace (Str.lit " ") (Str.lit "_") b)]).
Proof.
  intros Hconv r batch. split; [|split; [|split]].
  - intros Hb.
    assert (Hr : r = (update_state (chat_id, User.id user) (Next SUBJECT_SELECTION)
                        (store_user_data (User.id user) (Str.lit "batch") batch s),
                      [answer None;
                       reply_text chat_id (BatchSelectedMsg batch)
                         (Some get_subject_keyboard)])).
    { subst r. unfold process_update, conversation_handler, check_update.
      cbn [content effective_user effective_chat is_command]. rewrite Hconv.
      cbn [state_handlers callback_matches existsb]. rewrite Hb.
      cbn [orb run_callback content effective_user effective_chat callback_data].
      unfold batch_selection_handler. rewrite Hb.
      rewrite bool_decide_eq_false_2 by (by apply batch_data_not_restart).
      reflexivity. }
    rewrite Hr. cbn [fst snd]. repeat split.
    + rewrite get_user_data_update_state, get_user_data_store.
      by rewrite lookup_insert_eq.
    + simpl. by rewrite lookup_insert_eq.
  - intros Hb. apply skipped_step_unchanged; [done|].
    cbn [content effective_user effective_chat]. rewrite Hconv. done.
  - apply batch_buttons_decode.
  - apply batch_keyboard_rows.
Qed.

End Conversation.

(** ** The sample session, with the default configuration *)

Section Session.

Local Existing Instance default_config.

(** The submission scenario: one complaint, with the four values given
    and status [submitted]; the draft is gone. *)
Example submitted_session_store :
  let s := run initial submitted_session in
  complaint_store s
  = {[ Str.lit "complaint_1" :=
       {| Complaint.id := Str.lit "complaint_1";
          Complaint.user_id := 1;
          Complaint.username := Some (Str.lit "alice");
          Complaint.batch := Some (Str.lit "Master quest 2.0 2025");
          Complaint.subject := Some (Str.lit "Quant");
          Complaint.lecture_name := Some (Str.lit "Linear Equations Lecture 3");
          Complaint.photo_file_id := Str.lit "full";
          Complaint.status := Str.lit "submitted";
          Complaint.created_at := None |} ]}
  ∧ user_data_store s = ∅
  ∧ conversations s = ∅.
Proof. by vm_compute. Qed.

(** The review scenario: the admin presses [approved]. *)
Example approved_by_reviewer :
  let r :=
    process_update (run initial submitted_session) gateway_up
      {| effective_user := reviewer; effective_chat := 5915871770;
         content := CallbackQuery (Str.lit "status_complaint_1_approved") |} in
  Complaint.status <$> (complaint_store r.1 !! Str.lit "complaint_1")
  = Some (Str.lit "approved")
  ∧ send_message 1
      (StatusChangedMsg (Str.lit "complaint_1") (Str.lit "approved")
         (Some (Str.lit "Quant")) (Some (Str.lit "Linear Equations Lecture 3")))
      None ∈ r.2.
Proof.
  cbv zeta. split; [by vm_compute|].
  vm_compute. apply list_elem_of_further, list_elem_of_here.
Qed.

(** In the batch step a crafted button press [batch_foo] is accepted:
    the draft gets the batch [foo], which is not in [BATCHES], and the
    conversation moves on. *)
Lemma batch_selection_not_validated :
  let s := run initial [from alice (Command (Str.lit "start"))] in
  let s' :=
    (process_update s gateway_up
       {| effective_user := alice; effective_chat := 1;
          content := CallbackQuery (Str.lit "batch_foo") |}).1 in
  conversations s !! (1, 1) = Some BATCH_SELECTION
  ∧ (Str.lit "foo" ∉ BATCHES)
  ∧ get_user_data s 1 !! Str.lit "batch" = None
  ∧ get_user_data s' 1 !! Str.lit "batch" = Some (Str.lit "foo")
  ∧ conversations s' !! (1, 1) = Some SUBJECT_SELECTION.
Proof.
  cbv zeta. repeat split; try by vm_compute.
  unfold BATCHES. rewrite !elem_of_cons, elem_of_nil.
  intros [Heq|[Heq|[Heq|[]]]]; by vm_compute in Heq.
Qed.

Lemma batch_selection_accepts_prefix_witness :
  let s := run initial [from alice (Command (Str.lit "start"))] in
  let s' :=
    (process_update s gateway_up
       {| effective_user := alice; effective_chat := 1;
          content := CallbackQuery (Str.lit "batch_Master_quest_2.0_2025") |}).1 in
  get_user_data s' 1 !! Str.lit "batch" = Some (Str.lit "Master quest 2.0 2025").
Proof.
  intros s s'.
  refine (proj1 (proj2 (proj1
    (batch_selection_accepts_prefix s gateway_up 1 alice
       (Str.lit "batch_Master_quest_2.0_2025") _) _))).
  - by vm_compute.
  - by vm_compute.
Defined.

(** After a submission, a status button press by the admin with a token
    outside the enumeration is stored as it is. *)
Lemma status_not_validated :
  let s :=
    run initial
      (submitted_session
       ++ [from reviewer (CallbackQuery (Str.lit "status_complaint_1_bogus"))]) in
  Complaint.status <$> (complaint_store s !! Str.lit "complaint_1")
  = Some (Str.lit "bogus")
  ∧ (Str.lit "bogus" ∉ STATUSES)
  ∧ ¬ statuses_valid s.
Proof.
  intros s.
  assert (Hbogus : Str.lit "bogus" ∉ STATUSES).
  { unfold STATUSES. rewrite !elem_of_cons, elem_of_nil.
    intros [Heq|[Heq|[Heq|[Heq|[Heq|[]]]]]]; by vm_compute in Heq. }
  assert (Hstored : Complaint.status <$> (complaint_store s !! Str.lit "complaint_1")
                    = Some (Str.lit "bogus")) by (by vm_compute).
  split; [done|]. split; [done|].
  intros Hvalid.
  destruct (complaint_store s !! Str.lit "complaint_1") as [c|] eqn:Hc;
    [|discriminate Hstored].
  specialize (Hvalid _ _ Hc). simpl in Hstored. injection Hstored as Hst.
  by rewrite Hst in Hvalid.
Qed.

Lemma statuses_valid_for_keyboard_tokens_witness :
  statuses_valid
    (run initial
       (submitted_session
        ++ [from reviewer (CallbackQuery (Str.lit "status_complaint_1_approved"))])).
Proof.
  apply (proj1 statuses_valid_for_keyboard_tokens). by vm_compute.
Defined.

(** A user with a conversation in a second chat: the draft started in
    the group 100 is dropped by [/start] in the private chat, and the
    subject chosen next in the group is stored in a draft that has no
    batch. *)
Lemma draft_order_broken_across_chats :
  let s :=
    run initial
      [ from_chat 100 alice (Command (Str.lit "start"));
        from_chat 100 alice (CallbackQuery (Str.lit "batch_master_quest_2026"));
        from alice (Command (Str.lit "start"));
        from_chat 100 alice (CallbackQuery (Str.lit "subject_Quant")) ] in
  get_user_data s 1 !! Str.lit "subject" = Some (Str.lit "Quant")
  ∧ get_user_data s 1 !! Str.lit "batch" = None
  ∧ ¬ draft_ordered (get_user_data s 1).
Proof.
  intros s.
  assert (Hsubject : get_user_data s 1 !! Str.lit "subject" = Some (Str.lit "Quant"))
    by (by vm_compute).
  assert (Hbatch : get_user_data s 1 !! Str.lit "batch" = None) by (by vm_compute).
  split; [done|]. split; [done|].
  intros (Hord & _). rewrite Hsubject, Hbatch in Hord.
  destruct Hord as [b Hb]; [by eexists|done].
Qed.

Lemma draft_filled_in_order_witness :
  let s := run initial [from alice (Command (Str.lit "start"))] in
  draft_ordered (get_user_data (run initial draft_session) 1)
  ∧ user_data_store
      (process_update s gateway_up
         {| effective_user := alice; effective_chat := 1;
            content := Photo screenshot |}).1
    = user_data_store s.
Proof.
  intros s. split.
  - refine (proj1 draft_filled_in_order (fun uid => uid) draft_session 1 _).
    repeat constructor.
  - refine (proj1 (proj2 draft_filled_in_order s gateway_up
                     {| effective_user := alice; effective_chat := 1;
                        content := Photo screenshot |} _ _)).
    + reflexivity.
    + by vm_compute.
Defined.

(** Across two chats the photo step can be reached with a draft that
    has lost its batch; the complaint is then stored without one. *)
Example complaint_without_batch_across_chats :
  let s :=
    run initial
      [ from_chat 100 alice (Command (Str.lit "start"));
        from_chat 100 alice (CallbackQuery (Str.lit "batch_master_quest_2026"));
        from alice (Command (Str.lit "start"));
        from_chat 100 alice (CallbackQuery (Str.lit "subject_Quant"));
        from_chat 100 alice (Text (Str.lit "Limits 2"));
        from_chat 100 alice (Photo screenshot) ] in
  Complaint.batch <$> get_complaint s (Str.lit "complaint_1") = Some None
  ∧ Complaint.subject <$> get_complaint s (Str.lit "complaint_1")
    = Some (Some (Str.lit "Quant")).
Proof. by vm_compute. Qed.

Lemma screenshot_creates_complaint_witness :
  let s := run initial draft_session in
  let s' :=
    (process_update s gateway_up
       {| effective_user := alice; effective_chat := 1;
          content := Photo screenshot |}).1 in
  size (complaint_store s') = S (size (complaint_store s))
  ∧ user_data_store s' !! 1 = None.
Proof.
  intros s s'.
  destruct (screenshot_creates_complaint draft_session gateway_up 1 alice screenshot)
    as (c & largest & _ & _ & Hsize & _ & _ & _ & _ & _ & _ & _ & _ & _ & _
        & Hdraft & _).
  - by vm_compute.
  - done.
  - unfold ascending, screenshot, resolution.
    repeat constructor; simpl; lia.
  - split; [exact Hsize|exact Hdraft].
Defined.

Lemma complaint_ids_increase_witness :
  let first := create_complaint initial 1 None None None None (Str.lit "a") in
  let second :=
    create_complaint (clear_user_data 1 first.1) 2 None None None None (Str.lit "b") in
  first.2 ≠ second.2.
Proof.
  intros first second.
  refine (proj1 (complaint_ids_increase initial (clear_user_data 1 first.1)
                   1 2 None None None None None None None None
                   (Str.lit "a") (Str.lit "b") _)).
  apply rtc_once. apply op_clear_user_data.
Defined.

Lemma non_admin_status_update_rejected_witness :
  process_update (run initial submitted_session) gateway_up
    {| effective_user := alice; effective_chat := 1;
       content := CallbackQuery (Str.lit "status_complaint_1_approved") |}
  = (run initial submitted_session, [answer (Some NotAuthorizedMsg)]).
Proof.
  refine (proj1 (proj2 (non_admin_status_update_rejected
                   (run initial submitted_session) gateway_up 1 alice
                   (Str.lit "status_complaint_1_approved") _ _))).
  - by vm_compute.
  - by vm_compute.
Defined.

Lemma status_update_unknown_id_witness :
  update_complaint_status (run initial submitted_session)
    (Str.lit "complaint_7") (Str.lit "approved")
  = (run initial submitted_session, false).
Proof.
  refine (proj2 (status_update_unknown_id (run initial submitted_session)
                   gateway_up 5915871770 reviewer (Str.lit "status_complaint_7_approved")
                   (Str.lit "complaint_7") (Str.lit "approved") _ _ _)).
  - reflexivity.
  - by vm_compute.
  - by vm_compute.
Defined.

Lemma lecture_name_validation_witness :
  let s := run initial (take 3 draft_session) in
  (process_update s gateway_up
     {| effective_user := alice; effective_chat := 1;
        content := Text (Str.lit "   ") |}).1
  = s.
Proof.
  intros s.
  refine (proj1 (proj2 (proj1
    (lecture_name_validation s gateway_up 1 alice (Str.lit "   ") _) _))).
  - by vm_compute.
  - by vm_compute.
Defined.

Lemma notification_failure_keeps_status_witness :
  let r :=
    process_update (run initial submitted_session) gateway_blocked
      {| effective_user := reviewer; effective_chat := 5915871770;
         content := CallbackQuery (Str.lit "status_complaint_1_approved") |} in
  Complaint.status <$> (complaint_store r.1 !! Str.lit "complaint_1")
  = Some (Str.lit "approved").
Proof.
  intros r.
  destruct (complaint_store (run initial submitted_session) !! Str.lit "complaint_1")
    as [c|] eqn:Hc; [|by vm_compute in Hc].
  refine (proj1 (proj2
    (notification_failure_keeps_status (run initial submitted_session)
       gateway_blocked 5915871770 reviewer (Str.lit "status_complaint_1_approved")
       (Str.lit "complaint_1") (Str.lit "approved") c _ _ Hc _))).
  - reflexivity.
  - by vm_compute.
  - reflexivity.
Defined.

End Session.

(** * Further properties of the code *)

(** ** Strings: splitting, joining, replacing, trimming *)

Section MoreStrFacts.

Local Open Scope N_scope.

Lemma split_from_nonempty (sep s : str) (skip : nat) (cur : str) :
  Str.split_from sep s skip cur ≠ [].
Proof.
  revert skip cur. induction s as [|x s IH]; intros skip cur; [done|].
  cbn [Str.split_from]. destruct skip; [|apply IH].
  destruct (Str.startswith sep (x :: s)); [done|apply IH].
Qed.

Lemma join_cons (sep p : str) (rest : list str) :
  rest ≠ [] → Str.join sep (p :: rest) = p ++ sep ++ Str.join sep rest.
Proof. by destruct rest. Qed.

Lemma join_split_from (c : N) (s cur : str) :
  Str.join [c] (Str.split_from [c] s 0 cur) = rev cur ++ s.
Proof.
  revert cur. induction s as [|x s IH]; intros cur.
  - simpl. by rewrite app_nil_r.
  - cbn [Str.split_from Str.startswith length Nat.sub].
    destruct (N.eqb_spec c x) as [->|Hne].
    + rewrite join_cons by apply split_from_nonempty. by rewrite IH.
    + rewrite IH. simpl. by rewrite <- app_assoc.
Qed.

Lemma split_from_app_sep (c : N) (a b cur : str) :
  Str.split_from [c] (a ++ c :: b) 0 cur
  = Str.split_from [c] a 0 cur ++ Str.split_from [c] b 0 [].
Proof.
  revert cur. induction a as [|x a IH]; intros cur.
  - cbn [app Str.split_from Str.startswith length Nat.sub].
    by rewrite N.eqb_refl.
  - cbn [app Str.split_from Str.startswith length Nat.sub].
    destruct (N.eqb_spec c x) as [->|Hne]; by rewrite IH.
Qed.

Lemma split_no_sep (c : N) (s : str) : c ∉ s → Str.split [c] s = [s].
Proof.
  intros Hc. unfold Str.split. rewrite <- (app_nil_r s) at 1.
  rewrite split_from_piece by done. simpl. by rewrite app_nil_r, rev_involutive.
Qed.

Lemma replace_char (a b : N) (s : str) :
  Str.replace [a] [b] s = map (fun c => if (a =? c) then b else c) s.
Proof.
  unfold Str.replace. induction s as [|c s IH]; [done|].
  cbn [Str.replace_from Str.startswith length Nat.sub map].
  destruct (a =? c); simpl; by rewrite IH.
Qed.

Lemma replace_char_back (a b : N) (s : str) :
  b ∉ s → Str.replace [b] [a] (Str.replace [a] [b] s) = s.
Proof.
  rewrite !replace_char. induction s as [|c s IH]; intros Hb; [done|].
  apply not_elem_of_cons in Hb as [Hbc Hbs]. simpl. rewrite IH by done.
  destruct (N.eqb_spec a c) as [->|Hac].
  - by rewrite N.eqb_refl.
  - destruct (N.eqb_spec b c) as [->|_]; done.
Qed.

Lemma replace_from_skip (old new p s : str) :
  Str.replace_from old new (p ++ s) (length p) = Str.replace_from old new s 0.
Proof.
  induction p as [|x p IH]; [done|].
  cbn [app length Str.replace_from]. apply IH.
Qed.

Lemma replace_from_prefix (o : N) (old new s : str) :
  Str.replace_from (o :: old) new ((o :: old) ++ s) 0
  = new ++ Str.replace_from (o :: old) new s 0.
Proof.
  cbn [app Str.replace_from].
  change (o :: old ++ s) with ((o :: old) ++ s). rewrite startswith_app.
  cbn [length Nat.sub]. rewrite Nat.sub_0_r. by rewrite replace_from_skip.
Qed.

Lemma replace_from_absent (old new s : str) :
  occurs old s = false → Str.replace_from old new s 0 = s.
Proof.
  induction s as [|c s IH]; [done|].
  cbn [occurs Str.replace_from]. intros [Hhere Hlater]%orb_false_iff.
  rewrite Hhere. by rewrite IH.
Qed.

End MoreStrFacts.

(** ** Keyboards and callback data *)

Section Buttons.

Local Open Scope N_scope.

(** X13. A button of the batch or subject keyboard is read back by its
    handler as the name it was built from, provided the name has no
    underscore and the prefix does not occur inside the encoded name. *)
Theorem keyboard_button_roundtrip (prefix name : str) :
  prefix ≠ [] →
  (95 : N) ∉ name →
  occurs prefix (Str.replace (Str.lit " ") (Str.lit "_") name) = false →
  Str.startswith prefix (button_data prefix name) = true
  ∧ selected_value prefix (button_data prefix name) = name.
Proof.
  intros Hprefix Hname Hoccurs. unfold button_data, selected_value. split.
  - apply startswith_app.
  - destruct prefix as [|o old]; [done|].
    unfold Str.replace at 2. rewrite replace_from_prefix, replace_from_absent by done.
    cbn [app]. change (Str.lit "_") with [95]. change (Str.lit " ") with [32].
    by apply replace_char_back.
Qed.

Lemma keyboard_button_roundtrip_witness :
  selected_value (Str.lit "subject_")
    (button_data (Str.lit "subject_") (Str.lit "Current Affairs"))
  = Str.lit "Current Affairs".
Proof.
  refine (proj2 (keyboard_button_roundtrip (Str.lit "subject_")
                   (Str.lit "Current Affairs") _ _ _)).
  - done.
  - intros H. repeat (apply elem_of_cons in H as [H|H]; [discriminate H|]).
    by apply elem_of_nil in H.
  - reflexivity.
Defined.

(** A name in which the prefix occurs is not read back as it was. *)
Example batch_name_with_prefix_inside :
  selected_value (Str.lit "batch_") (button_data (Str.lit "batch_") (Str.lit "my batch 1"))
  = Str.lit "my 1".
Proof. reflexivity. Qed.

(** X14. The data of a status button is taken apart into the id and
    the status for any complaint id, also one with underscores in it, as
    long as the lowered status has no underscore. *)
Theorem parse_status_data_any_id (complaint_id status : str) :
  (95 : N) ∉ Str.lower status →
  parse_status_data (status_callback_data complaint_id status)
  = Some (complaint_id, Str.lower status).
Proof.
  intros Hst. unfold parse_status_data, status_callback_data.
  rewrite startswith_app.
  change (Str.lit "status_" ++ complaint_id ++ Str.lit "_" ++ Str.lower status)
    with (Str.lit "status" ++ 95 :: (complaint_id ++ 95 :: Str.lower status)).
  change (Str.lit "_") with [95].
  unfold Str.split. rewrite !split_from_app_sep.
  fold (Str.split [95] (Str.lit "status")).
  fold (Str.split [95] complaint_id). fold (Str.split [95] (Str.lower status)).
  rewrite (split_no_sep 95 (Str.lower status)) by done.
  change (Str.split [95] (Str.lit "status")) with [Str.lit "status"].
  set (parts := Str.split [95] complaint_id).
  assert (Hparts : parts ≠ []) by apply split_from_nonempty.
  replace (3 <=? length ([Str.lit "status"] ++ parts ++ [Str.lower status]))%nat
    with true.
  - unfold Str.slice_1_m1, Str.item_m1. cbn [app tl].
    rewrite removelast_last.
    change (Str.lit "status" :: parts ++ [Str.lower status])
      with ((Str.lit "status" :: parts) ++ [Str.lower status]).
    rewrite last_last. unfold parts, Str.split.
    by rewrite join_split_from.
  - symmetry. apply Nat.leb_le. rewrite !length_app. simpl.
    destruct parts; [done|]. simpl. lia.
Qed.

Lemma parse_status_data_any_id_witness :
  parse_status_data (Str.lit "status_ticket_2024_17_resolved")
  = Some (Str.lit "ticket_2024_17", Str.lit "resolved").
Proof.
  refine (parse_status_data_any_id (Str.lit "ticket_2024_17") (Str.lit "Resolved") _).
  intros H. repeat (apply elem_of_cons in H as [H|H]; [discriminate H|]).
  by apply elem_of_nil in H.
Defined.

Lemma status_rows_layout (complaint_id : str) (options : list str) (i : nat)
    (row : list (str * str)) :
  length row = (i mod 2)%nat →
  concat (status_rows complaint_id i row options)
  = row ++ map (fun status => (status, status_callback_data complaint_id status)) options
  ∧ Forall (fun r => (1 ≤ length r ≤ 2)%nat) (status_rows complaint_id i row options)
  ∧ Forall (fun r => length r = 2%nat)
      (removelast (status_rows complaint_id i row options)).
Proof.
  revert i row. induction options as [|status options IH]; intros i row Hrow.
  - cbn [status_rows map]. rewrite app_nil_r.
    destruct row as [|b row]; [by repeat split; constructor|].
    assert (length (b :: row) = 1%nat) as Hlen.
    { pose proof (Nat.mod_upper_bound i 2 ltac:(lia)). cbn [length] in *. lia. }
    cbn [concat removelast]. rewrite app_nil_r.
    split; [done|]. split; [|by constructor].
    constructor; [lia|by constructor].
  - cbn [status_rows map].
    assert (Hcase : (i mod 2 = 0 ∧ S i mod 2 = 1 ∧ (i + 1) mod 2 = 1
                     ∨ i mod 2 = 1 ∧ S i mod 2 = 0 ∧ (i + 1) mod 2 = 0)%nat).
    { replace (i + 1)%nat with (S i) by lia.
      pose proof (Nat.mod_upper_bound i 2 ltac:(lia)).
      pose proof (Nat.mod_upper_bound (S i) 2 ltac:(lia)).
      pose proof (Nat.div_mod_eq i 2). pose proof (Nat.div_mod_eq (S i) 2). lia. }
    destruct Hcase as [(Hi & HSi & Hi1)|(Hi & HSi & Hi1)]; rewrite Hi1; cbn [Nat.eqb].
    + destruct (IH (S i) (row ++ [(status, status_callback_data complaint_id status)]))
        as (Hc & Hall & Hinit).
      { by rewrite length_app, Hrow, Hi, HSi. }
      rewrite Hc, <- app_assoc. done.
    + destruct (IH (S i) []) as (Hc & Hall & Hinit); [by rewrite HSi|].
      cbn [concat]. rewrite Hc, <- app_assoc. cbn [app].
      assert (Hlen : length (row ++ [(status, status_callback_data complaint_id status)])
                     = 2%nat).
      { by rewrite length_app, Hrow, Hi. }
      repeat split.
      * constructor; [lia|done].
      * destruct (status_rows complaint_id (S i) [] options) eqn:Hrows;
          [by constructor|].
        cbn [removelast]. by constructor.
Qed.

(** X20. The status keyboard lists one button per option, in the order
    of the options and each with its callback data; a row holds two
    buttons, except that the last row holds one when the number of
    options is odd. *)
Theorem status_keyboard_layout (complaint_id : str) (options : list str) :
  let rows := status_rows complaint_id 0 [] options in
  concat rows
  = map (fun status => (status, status_callback_data complaint_id status)) options
  ∧ Forall (fun r => (1 ≤ length r ≤ 2)%nat) rows
  ∧ Forall (fun r => length r = 2%nat) (removelast rows)
  ∧ concat (get_status_keyboard complaint_id)
    = map (fun status => (status, status_callback_data complaint_id status))
        STATUS_OPTIONS.
Proof.
  intros rows.
  destruct (status_rows_layout complaint_id options 0 [] eq_refl) as (Hc & Hall & Hinit).
  repeat split; done.
Qed.

End Buttons.

(** ** The stores *)

Section Stores.

(** X1. A value stored under a non-empty key is read back under that
    key; other keys of the user and the data of other users read as
    before; read with no key, the user's whole dictionary comes back
    with the value in it. *)
Theorem user_data_roundtrip (s : bot) (user_id : Z) (key value : str) :
  key ≠ [] →
  let s' := store_user_data user_id key value s in
  get_user_data_key s' user_id (Some key) = Value (Some value)
  ∧ (∀ key', key' ≠ key →
       get_user_data_key s' user_id (Some key')
       = match key' with
         | [] => WholeDraft (<[key := value]> (get_user_data s user_id))
         | _ :: _ => get_user_data_key s user_id (Some key')
         end)
  ∧ (∀ user_id' k, user_id' ≠ user_id →
       get_user_data_key s' user_id' k = get_user_data_key s user_id' k)
  ∧ get_user_data_key s' user_id None
    = WholeDraft (<[key := value]> (get_user_data s user_id)).
Proof.
  intros Hkey s'. unfold s', get_user_data_key, store_user_data, get_user_data.
  cbn [with_user_data user_data_store]. rewrite lookup_insert_eq.
  destruct key as [|c key]; [done|]. rewrite lookup_insert_eq.
  repeat split; try done.
  - intros [|c' key'] Hne; [done|]. rewrite lookup_insert_ne by done.
    destruct (user_data_store s !! user_id); [done|]. simpl.
    by rewrite lookup_empty.
  - intros user_id' k Hne. by rewrite lookup_insert_ne.
Qed.

Lemma user_data_roundtrip_witness :
  get_user_data_key
    (store_user_data 1 (Str.lit "batch") (Str.lit "master quest 2026") initial)
    1 (Some (Str.lit "batch"))
  = Value (Some (Str.lit "master quest 2026")).
Proof.
  refine (proj1 (user_data_roundtrip initial 1 (Str.lit "batch")
                   (Str.lit "master quest 2026") _)).
  done.
Defined.

(** X2. After [clear_user_data] the user has no data: a read with a key
    gives [None], a read without one (or with the empty key) gives the
    empty dictionary.  Other users keep theirs, and clearing a user who
    has no data changes nothing. *)
Theorem clear_user_data_forgets (s : bot) (user_id : Z) :
  let s' := clear_user_data user_id s in
  (∀ c key, get_user_data_key s' user_id (Some (c :: key)) = Value None)
  ∧ get_user_data_key s' user_id None = WholeDraft ∅
  ∧ get_user_data_key s' user_id (Some []) = WholeDraft ∅
  ∧ (∀ user_id' k, user_id' ≠ user_id →
       get_user_data_key s' user_id' k = get_user_data_key s user_id' k)
  ∧ (user_data_store s !! user_id = None → s' = s)
  ∧ clear_user_data user_id s' = s'.
Proof.
  intros s'. unfold s', get_user_data_key, clear_user_data.
  cbn [with_user_data user_data_store]. rewrite lookup_delete_eq.
  repeat split; try done.
  - intros user_id' k Hne. by rewrite lookup_delete_ne.
  - intros Hnone. destruct s as [uds cs cc convs].
    cbn [user_data_store] in Hnone. unfold with_user_data.
    cbn [user_data_store complaint_store complaint_counter conversations].
    by rewrite delete_id.
  - unfold with_user_data.
    cbn [user_data_store complaint_store complaint_counter conversations].
    by rewrite delete_delete_eq.
Qed.

(** X3. The id returned by [create_complaint] looks up the complaint
    just built, with the values passed in and status [submitted]; every
    other id looks up what it did before, and the drafts and
    conversation states are untouched. *)
Theorem create_complaint_then_get (s : bot) (user_id : Z) (username : option str)
    (batch subject lecture_name : option str) (photo_file_id : str) :
  let r :=
    create_complaint s user_id username batch subject lecture_name photo_file_id in
  get_complaint r.1 r.2
  = Some {| Complaint.id := r.2;
            Complaint.user_id := user_id;
            Complaint.username := username;
            Complaint.batch := batch;
            Complaint.subject := subject;
            Complaint.lecture_name := lecture_name;
            Complaint.photo_file_id := photo_file_id;
            Complaint.status := Str.lit "submitted";
            Complaint.created_at := None |}
  ∧ r.2 = complaint_id_of (complaint_counter s + 1)
  ∧ (∀ k, k ≠ r.2 → get_complaint r.1 k = get_complaint s k)
  ∧ user_data_store r.1 = user_data_store s
  ∧ conversations r.1 = conversations s.
Proof.
  intros r. unfold r, create_complaint, get_complaint.
  cbn [fst snd complaint_store user_data_store conversations].
  rewrite lookup_insert_eq. repeat split; try done.
  intros k Hne. by rewrite lookup_insert_ne.
Qed.

(** X4. [update_complaint_status] returns [True] exactly when the id is
    in the store.  It then replaces the status of that complaint and
    nothing else: the other fields, the other complaints, the counter,
    the drafts and the conversation states stay.  A second update of the
    same id overrides the first. *)
Theorem update_complaint_status_effect (s : bot) (complaint_id new_status : str) :
  let r := update_complaint_status s complaint_id new_status in
  (r.2 = true ↔ is_Some (get_complaint s complaint_id))
  ∧ (r.2 = false → r.1 = s)
  ∧ get_complaint r.1 complaint_id
    = Complaint.set_status new_status <$> get_complaint s complaint_id
  ∧ (∀ k, k ≠ complaint_id → get_complaint r.1 k = get_complaint s k)
  ∧ complaint_counter r.1 = complaint_counter s
  ∧ user_data_store r.1 = user_data_store s
  ∧ conversations r.1 = conversations s
  ∧ (∀ later_status,
       (update_complaint_status r.1 complaint_id later_status).1
       = (update_complaint_status s complaint_id later_status).1).
Proof.
  intros r. unfold r, update_complaint_status, get_complaint.
  destruct (complaint_store s !! complaint_id) as [c|] eqn:Hc;
    cbn [fst snd complaint_store complaint_counter user_data_store conversations].
  - rewrite lookup_insert_eq. repeat split; try done.
    + intros k Hne. by rewrite lookup_insert_ne.
    + intros later. cbn [fst]. by rewrite insert_insert_eq.
  - rewrite Hc. repeat split; done.
Qed.

(** X21. Whenever [lecture_name_handler] moves on to the photo step, the
    lecture name it has stored is the text without the white space
    around it: the text is that name between two runs of white space,
    and the name is not empty and neither begins nor ends with white
    space. *)
Theorem stored_lecture_name_trimmed (s : bot)
    (chat_id : Z) (user : User.t) (text : str) :
  let r := lecture_name_handler s chat_id user text in
  r.2 = Next SCREENSHOT_UPLOAD →
  ∃ name before after : str,
    get_user_data r.1.1 (User.id user) !! Str.lit "lecture_name" = Some name
    ∧ text = before ++ name ++ after
    ∧ all_whitespace before = true ∧ all_whitespace after = true
    ∧ name ≠ [] ∧ trimmed name.
Proof.
  intros r Hnext. unfold r, lecture_name_handler in *.
  destruct (lstrip_split text) as (before & Hbefore & Hws1).
  destruct (rstrip_split (Str.lstrip text)) as (after & Hafter & Hws2).
  fold (Str.strip text) in Hafter.
  pose proof (strip_trimmed text) as Htrim.
  destruct (Str.strip text) as [|c name] eqn:Hstrip; [done|].
  exists (c :: name), before, after. cbn [fst snd].
  rewrite get_user_data_store, lookup_insert_eq.
  split; [done|]. split; [by rewrite <- Hafter|]. done.
Qed.

End Stores.

(** ** Dispatch and the stores over a run *)

Section Coverage.

Context `{Config}.

Lemma run_app (s : bot) (updates more : list (gateway * Update)) :
  run s (updates ++ more) = run (run s updates) more.
Proof. unfold run. apply fold_left_app. Qed.

Lemma process_update_other_users (s : bot) (g : gateway) (u : Update) (uid : Z) :
  uid ≠ User.id (effective_user u) →
  user_data_store (process_update s g u).1 !! uid = user_data_store s !! uid
  ∧ ∀ chat_id : Z,
      conversations (process_update s g u).1 !! (chat_id, uid)
      = conversations s !! (chat_id, uid).
Proof.
  intros Hne. unfold process_update, conversation_handler.
  destruct (check_update _ _) as [h|].
  - destruct h; cbn [run_callback];
      unfold start_command, batch_selection_handler, subject_selection_handler,
        lecture_name_handler, screenshot_handler, create_complaint, cancel_handler;
      repeat case_match; simplify_eq; cbn [fst]; simpl;
      (split; [|intros chat_id]);
      rewrite ?lookup_insert_ne, ?lookup_delete_ne by congruence;
      rewrite ?lookup_insert_ne, ?lookup_delete_ne by congruence; done.
  - destruct (callback_matches _ _).
    + destruct (admin_status_handler_user_data s g (effective_chat u)
                  (effective_user u) (callback_data (content u)))
        as (-> & -> & _). done.
    + by destruct (content u).
Qed.

(** X7. Updates sent by other users never touch a user's draft or the
    step of any of the user's conversations. *)
Theorem users_do_not_interfere (s : bot) (updates : list (gateway * Update))
    (uid : Z) :
  Forall (fun gu => User.id (effective_user gu.2) ≠ uid) updates →
  user_data_store (run s updates) !! uid = user_data_store s !! uid
  ∧ ∀ chat_id : Z,
      conversations (run s updates) !! (chat_id, uid)
      = conversations s !! (chat_id, uid).
Proof.
  revert s. induction updates as [|[g u] updates IH]; intros s Hall; [done|].
  apply Forall_cons in Hall as [Hu Hrest]. cbn [run fold_left fst snd].
  destruct (IH (process_update s g u).1 Hrest) as [Hd Hc].
  unfold run in Hd, Hc. cbn [snd] in Hu.
  destruct (process_update_other_users s g u uid) as [Hd1 Hc1]; [done|].
  split; [by rewrite Hd|]. intros chat_id. by rewrite Hc.
Qed.

Lemma store_inv_step (s : bot) (g : gateway) (u : Update) :
  store_inv s → store_inv (process_update s g u).1.
Proof.
  intros [Hids Hsize]. split; [by apply ids_inv_step|].
  pose proof (next_id_fresh s Hids) as Hfresh.
  destruct (process_update_complaints s g u)
    as [[-> ->]|[(cid & st & c & _ & Hcid & -> & ->)|(c & _ & _ & -> & ->)]].
  - done.
  - by rewrite map_size_insert_Some.
  - rewrite map_size_insert_None by done. lia.
Qed.

Lemma store_inv_run (updates : list (gateway * Update)) (s : bot) :
  store_inv s → store_inv (run s updates).
Proof.
  revert s. induction updates as [|[g u] updates IH]; intros s Hinv; [done|].
  simpl. apply IH. by apply store_inv_step.
Qed.

Lemma store_inv_initial : store_inv initial.
Proof. split; [apply ids_inv_initial|done]. Qed.

(** X5. After any sequence of updates the store holds exactly as many
    complaints as the counter has counted, each filed under the id it
    carries, and that id is [complaint_n] for some [n] from 1 to the
    counter; an id beyond the counter looks up nothing. *)
Theorem store_matches_counter (updates : list (gateway * Update)) :
  let s := run initial updates in
  size (complaint_store s) = N.to_nat (complaint_counter s)
  ∧ (∀ k c, get_complaint s k = Some c →
       Complaint.id c = k
       ∧ ∃ n, (1 ≤ n ≤ complaint_counter s)%N ∧ k = complaint_id_of n)
  ∧ (∀ n, (complaint_counter s < n)%N → get_complaint s (complaint_id_of n) = None).
Proof.
  intros s. destruct (store_inv_run updates initial store_inv_initial) as [Hids Hsize].
  fold s in Hids, Hsize. split; [done|]. split; [exact Hids|].
  intros n Hn. unfold get_complaint.
  destruct (complaint_store s !! complaint_id_of n) as [c|] eqn:Hc; [|done].
  destruct (Hids _ _ Hc) as (_ & m & Hm & Heq).
  apply complaint_id_of_inj in Heq. lia.
Qed.

Lemma same_but_status_refl (c : Complaint.t) : same_but_status c c.
Proof. by destruct c. Qed.

Lemma same_but_status_trans (c1 c2 c3 : Complaint.t) :
  same_but_status c1 c2 → same_but_status c2 c3 → same_but_status c1 c3.
Proof. unfold same_but_status. intros -> ->. by destruct c1. Qed.

Lemma non_admin_complaints (s : bot) (g : gateway) (u : Update) :
  User.id (effective_user u) ≠ ADMIN_CHAT_ID →
  let s' := (process_update s g u).1 in
  complaint_store s' = complaint_store s
  ∨ ∃ c, complaint_store s'
         = <[complaint_id_of (complaint_counter s + 1) := c]> (complaint_store s).
Proof.
  intros Hne. unfold process_update, conversation_handler.
  destruct (check_update _ _) as [h|].
  - destruct h; cbn [run_callback];
      unfold start_command, batch_selection_handler, subject_selection_handler,
        lecture_name_handler, screenshot_handler, create_complaint, cancel_handler;
      repeat case_match; simplify_eq; cbn [fst];
      try (by left).
    right. by eexists.
  - destruct (callback_matches _ _).
    + unfold admin_status_handler, is_admin.
      destruct (Z.eqb_spec (User.id (effective_user u)) ADMIN_CHAT_ID); [done|].
      by left.
    + left. by destruct (content u).
Qed.

Lemma complaint_persists_step (s : bot) (g : gateway) (u : Update)
    (k : str) (c : Complaint.t) :
  ids_inv s → complaint_store s !! k = Some c →
  ∃ c', complaint_store (process_update s g u).1 !! k = Some c'
        ∧ same_but_status c c'
        ∧ (User.id (effective_user u) ≠ ADMIN_CHAT_ID → c' = c).
Proof.
  intros Hids Hk. pose proof (next_id_fresh s Hids) as Hfresh.
  assert (Hkfresh : complaint_id_of (complaint_counter s + 1) ≠ k)
    by (intros Heq; rewrite Heq in Hfresh; congruence).
  destruct (process_update_complaints s g u)
    as [[Hs _]|[(cid & st & c0 & _ & Hcid & Hs & _)|(c0 & _ & _ & Hs & _)]].
  - exists c. rewrite Hs. split; [done|]. split; [apply same_but_status_refl|done].
  - destruct (decide (cid = k)) as [->|Hne].
    + exists (Complaint.set_status st c). rewrite Hs, lookup_insert_eq.
      assert (c0 = c) as -> by congruence.
      split; [done|]. split; [done|].
      intros Hna. destruct (non_admin_complaints s g u Hna) as [Hsame|[c1 Hnew]].
      * rewrite Hsame in Hs. apply (f_equal (fun m => m !! k)) in Hs.
        rewrite lookup_insert_eq, Hk in Hs. congruence.
      * rewrite Hnew in Hs. apply (f_equal (fun m => m !! k)) in Hs.
        rewrite lookup_insert_eq, lookup_insert_ne, Hk in Hs by done. congruence.
    + exists c. rewrite Hs, lookup_insert_ne by done.
      split; [done|]. split; [apply same_but_status_refl|done].
  - exists c. rewrite Hs, lookup_insert_ne by done.
    split; [done|]. split; [apply same_but_status_refl|done].
Qed.

Lemma complaint_persists_run (more : list (gateway * Update)) (s : bot)
    (k : str) (c : Complaint.t) :
  ids_inv s → complaint_store s !! k = Some c →
  ∃ c', complaint_store (run s more) !! k = Some c'
        ∧ same_but_status c c'
        ∧ (Forall (fun gu => User.id (effective_user gu.2) ≠ ADMIN_CHAT_ID) more →
           c' = c).
Proof.
  revert s c. induction more as [|[g u] more IH]; intros s c Hids Hk.
  - exists c. split; [done|]. split; [apply same_but_status_refl|done].
  - destruct (complaint_persists_step s g u k c Hids Hk) as (c1 & Hk1 & Hsame1 & Hna1).
    destruct (IH (process_update s g u).1 c1 (ids_inv_step s g u Hids) Hk1)
      as (c2 & Hk2 & Hsame2 & Hna2).
    exists c2. split; [done|]. split; [by eapply same_but_status_trans|].
    intros Hall. apply Forall_cons in Hall as [Hu Hrest].
    rewrite (Hna2 Hrest). by apply Hna1.
Qed.

(** X6. A complaint once in the store stays there through every later
    update, under the same id and with every field but the status as it
    was; if none of the later updates comes from the admin, the status is
    as it was too. *)
Theorem complaints_persist (updates more : list (gateway * Update))
    (k : str) (c : Complaint.t) :
  get_complaint (run initial updates) k = Some c →
  ∃ c', get_complaint (run initial (updates ++ more)) k = Some c'
        ∧ same_but_status c c'
        ∧ (Forall (fun gu => User.id (effective_user gu.2) ≠ ADMIN_CHAT_ID) more →
           c' = c).
Proof.
  intros Hk. rewrite run_app. unfold get_complaint in *.
  apply complaint_persists_run; [|done].
  apply ids_inv_run, ids_inv_initial.
Qed.

End Coverage.

(** ** The steps of the conversation *)

Section Steps.

Context `{Config}.

Lemma state_handlers_command (st : conv_state) (name : str) :
  state_handlers st (Command name) = None.
Proof. by destruct st. Qed.

(** X8. [/start] is taken in every state, also in the middle of a
    submission: the user's draft is dropped, the conversation is at the
    batch step, the welcome with the batch keyboard is the only reply,
    and the complaints and the counter are as before. *)
Theorem start_resets_conversation (s : bot) (g : gateway) (chat_id : Z) (user : User.t)
    (name : str) :
  is_command (Str.lit "start") (Command name) = true →
  let r := process_update s g {| effective_user := user; effective_chat := chat_id;
                                 content := Command name |} in
  r.1 = update_state (chat_id, User.id user) (Next BATCH_SELECTION)
          (clear_user_data (User.id user) s)
  ∧ r.2 = [reply_text chat_id (WelcomeMsg (User.first_name user))
             (Some get_batch_keyboard)]
  ∧ user_data_store r.1 !! User.id user = None
  ∧ conversations r.1 !! (chat_id, User.id user) = Some BATCH_SELECTION
  ∧ complaint_store r.1 = complaint_store s
  ∧ complaint_counter r.1 = complaint_counter s.
Proof.
  intros Hstart r. unfold r, process_update, conversation_handler, check_update.
  cbn [content effective_user effective_chat]. rewrite Hstart.
  cbn [run_callback start_command effective_user effective_chat fst snd].
  repeat split.
  - simpl. apply lookup_delete_eq.
  - simpl. apply lookup_insert_eq.
Qed.

(** X9. [/cancel] in any step of a conversation drops the user's draft
    and ends the conversation; no complaint is created and none is
    changed. *)
Theorem cancel_ends_conversation (s : bot) (g : gateway) (chat_id : Z) (user : User.t)
    (name : str) (st : conv_state) :
  conversations s !! (chat_id, User.id user) = Some st →
  is_command (Str.lit "cancel") (Command name) = true →
  let r := process_update s g {| effective_user := user; effective_chat := chat_id;
                                 content := Command name |} in
  r.2 = [reply_text chat_id CancelledMsg None]
  ∧ user_data_store r.1 !! User.id user = None
  ∧ conversations r.1 !! (chat_id, User.id user) = None
  ∧ complaint_store r.1 = complaint_store s
  ∧ complaint_counter r.1 = complaint_counter s.
Proof.
  intros Hconv Hcancel r.
  assert (Hstart : is_command (Str.lit "start") (Command name) = false).
  { cbn [is_command] in *. apply bool_decide_eq_true in Hcancel.
    apply bool_decide_eq_false. by rewrite Hcancel. }
  unfold r, process_update, conversation_handler, check_update.
  cbn [content effective_user effective_chat].
  rewrite Hstart, Hconv, state_handlers_command, Hcancel.
  cbn [run_callback cancel_handler effective_user effective_chat fst snd].
  repeat split.
  - simpl. apply lookup_delete_eq.
  - simpl. apply lookup_delete_eq.
Qed.

(** X10. For a user with no conversation in the chat only [/start] is
    acted on:
    any other update leaves every draft and every conversation state as
    it was, and a command, [/cancel] included, is answered as an unknown
    command with the whole state unchanged. *)
Theorem idle_user_only_starts (s : bot) (g : gateway) (u : Update) :
  conversations s !! (effective_chat u, User.id (effective_user u)) = None →
  is_command (Str.lit "start") (content u) = false →
  user_data_store (process_update s g u).1 = user_data_store s
  ∧ conversations (process_update s g u).1 = conversations s
  ∧ (is_any_command (content u) = true →
     process_update s g u
     = (s, [reply_text (effective_chat u) UnknownCommandMsg None])).
Proof.
  intros Hconv Hstart. unfold process_update, conversation_handler, check_update.
  rewrite Hstart, Hconv.
  destruct (callback_matches _ _) eqn:Hcb.
  - destruct (admin_status_handler_user_data s g (effective_chat u) (effective_user u)
                (callback_data (content u))) as (Hu & Hc & _).
    split; [done|]. split; [done|]. by destruct (content u).
  - by destruct (content u).
Qed.

(** X11. A command that is neither [/start] nor [/cancel] changes
    nothing in any state and is answered as unknown. *)
Theorem unknown_command_ignored (s : bot) (g : gateway)
    (chat_id : Z) (user : User.t) (name : str) :
  is_command (Str.lit "start") (Command name) = false →
  is_command (Str.lit "cancel") (Command name) = false →
  process_update s g {| effective_user := user; effective_chat := chat_id;
                        content := Command name |}
  = (s, [reply_text chat_id UnknownCommandMsg None]).
Proof.
  intros Hstart Hcancel. unfold process_update, conversation_handler, check_update.
  cbn [content effective_user effective_chat]. rewrite Hstart.
  destruct (conversations s !! (chat_id, User.id user)) as [st|]; [|done].
  by rewrite state_handlers_command, Hcancel.
Qed.

(** X12. In the subject step a button press whose data starts with
    [subject_] is accepted whatever follows the prefix: the value read
    from the data is stored as the subject, the batch chosen before is
    kept, and the conversation moves to the lecture-name step.  Any other
    button press leaves drafts and conversation states alone. *)
Theorem subject_selection_accepts_prefix (s : bot) (g : gateway)
    (chat_id : Z) (user : User.t)
    (data : str) :
  conversations s !! (chat_id, User.id user) = Some SUBJECT_SELECTION →
  let r :=
    process_update s g {| effective_user := user; effective_chat := chat_id;
                          content := CallbackQuery data |} in
  let subject := selected_value (Str.lit "subject_") data in
  (Str.startswith (Str.lit "subject_") data = true →
     get_user_data r.1 (User.id user)
     = <[Str.lit "subject" := subject]> (get_user_data s (User.id user))
     ∧ get_user_data r.1 (User.id user) !! Str.lit "batch"
       = get_user_data s (User.id user) !! Str.lit "batch"
     ∧ conversations r.1 !! (chat_id, User.id user) = Some LECTURE_NAME_INPUT
     ∧ r.2 = [answer None;
              reply_text chat_id
                (SubjectSelectedMsg subject
                   (get_user_data s (User.id user) !! Str.lit "batch")) None])
  ∧ (Str.startswith (Str.lit "subject_") data = false →
     user_data_store r.1 = user_data_store s
     ∧ conversations r.1 = conversations s).
Proof.
  intros Hconv r subject. split.
  - intros Hsub. unfold r, process_update, conversation_handler, check_update.
    cbn [content effective_user effective_chat is_command]. rewrite Hconv.
    cbn [state_handlers callback_matches existsb]. rewrite Hsub.
    cbn [orb run_callback content effective_user effective_chat callback_data].
    unfold subject_selection_handler. rewrite Hsub. cbn [fst snd].
    rewrite get_user_data_update_state, !get_user_data_store.
    rewrite lookup_insert_ne by done.
    repeat split. simpl. apply lookup_insert_eq.
  - intros Hsub. apply skipped_step_unchanged; [done|].
    cbn [content effective_user effective_chat]. by rewrite Hconv.
Qed.

(** X23. In the batch step the button [restart] asks for the batch
    again and changes nothing; a press whose data only begins with
    [restart] is acknowledged and otherwise ignored. *)
Theorem restart_button_keeps_state (s : bot) (g : gateway) (chat_id : Z) (user : User.t)
    (data : str) :
  conversations s !! (chat_id, User.id user) = Some BATCH_SELECTION →
  Str.startswith (Str.lit "restart") data = true →
  process_update s g {| effective_user := user; effective_chat := chat_id;
                        content := CallbackQuery data |}
  = (s,
     if bool_decide (data = Str.lit "restart")
     then [answer None;
           reply_text chat_id StartingOverMsg (Some get_batch_keyboard)]
     else [answer None]).
Proof.
  intros Hconv Hrestart.
  assert (Hbatch : Str.startswith (Str.lit "batch_") data = false).
  { destruct data as [|c data]; [done|].
    assert (Str.lit "restart" = [114; 101; 115; 116; 97; 114; 116]%N) as Hr by done.
    assert (Str.lit "batch_" = [98; 97; 116; 99; 104; 95]%N) as -> by done.
    rewrite Hr in Hrestart. cbn [Str.startswith] in *.
    destruct (N.eqb_spec 114 c) as [<-|]; done. }
  unfold process_update, conversation_handler, check_update.
  cbn [content effective_user effective_chat is_command]. rewrite Hconv.
  cbn [state_handlers callback_matches existsb]. rewrite Hbatch, Hrestart.
  cbn [orb run_callback content effective_user effective_chat callback_data].
  unfold batch_selection_handler. rewrite Hbatch.
  destruct (bool_decide (data = Str.lit "restart"));
    by rewrite update_state_same.
Qed.

(** X19. In the photo step a text message is answered with the request
    for an image and changes nothing; a message that is neither text nor
    photo gets no answer at all and changes nothing either. *)
Theorem photo_step_rejects_other_input (s : bot) (g : gateway)
    (chat_id : Z) (user : User.t) :
  conversations s !! (chat_id, User.id user) = Some SCREENSHOT_UPLOAD →
  (∀ c text,
     process_update s g {| effective_user := user; effective_chat := chat_id;
                           content := Text (c :: text) |}
     = (s, [reply_text chat_id NotAnImageMsg None]))
  ∧ process_update s g {| effective_user := user; effective_chat := chat_id;
                          content := Attachment |} = (s, [])
  ∧ process_update s g {| effective_user := user; effective_chat := chat_id;
                          content := Photo [] |} = (s, []).
Proof.
  intros Hconv. unfold process_update, conversation_handler, check_update.
  cbn [content effective_user effective_chat is_command]. rewrite Hconv.
  cbn [state_handlers is_photo text_not_command callback_matches].
  repeat split. intros c text.
  cbn [run_callback content effective_user effective_chat message_photo screenshot_handler].
  by rewrite update_state_same.
Qed.

(** X22. When the photo cannot be sent to the admin chat, the summary
    with the status buttons is not sent either; the complaint is stored
    all the same, the user is told that it was submitted, and the draft
    and the conversation are gone. *)
Theorem submission_survives_forwarding_failure (s : bot) (g : gateway)
    (chat_id : Z) (user : User.t) (first : PhotoSize.t) (photo : list PhotoSize.t) :
  conversations s !! (chat_id, User.id user) = Some SCREENSHOT_UPLOAD →
  send_photo_ok g = false →
  let r :=
    process_update s g
      {| effective_user := user; effective_chat := chat_id;
         content := Photo (first :: photo) |} in
  let complaint_id := complaint_id_of (complaint_counter s + 1) in
  r.2 = [reply_text chat_id (SubmittedMsg complaint_id) None;
         send_photo ADMIN_CHAT_ID
           (PhotoSize.file_id (List.last (first :: photo) first))]
  ∧ Complaint.status <$> get_complaint r.1 complaint_id = Some (Str.lit "submitted")
  ∧ user_data_store r.1 !! User.id user = None
  ∧ conversations r.1 !! (chat_id, User.id user) = None.
Proof.
  intros Hconv Hfail r complaint_id.
  unfold r, process_update, conversation_handler, check_update.
  cbn [content effective_user effective_chat is_command]. rewrite Hconv.
  cbn [state_handlers is_photo run_callback content effective_user effective_chat message_photo].
  unfold screenshot_handler, create_complaint, send_complaint_to_admin, get_complaint.
  cbn [fst snd update_state store_user_data clear_user_data with_user_data
       with_conversations complaint_store user_data_store conversations
       Str.item_m1].
  rewrite lookup_insert_eq, Hfail. fold complaint_id.
  cbn [Complaint.photo_file_id]. rewrite lookup_insert_eq.
  repeat split.
  - apply lookup_delete_eq.
  - apply lookup_delete_eq.
Qed.

End Steps.

(** ** The admin's status updates *)

Section StatusUpdates.

Context `{Config}.

(** X16. Status data with nothing but a single part after [status_]
    names no complaint: pressed by the admin it is acknowledged and
    otherwise ignored, with no not-found reply and no change. *)
Theorem short_status_data_ignored (s : bot) (g : gateway) (chat_id : Z) (user : User.t)
    (rest : str) :
  User.id user = ADMIN_CHAT_ID →
  (95%N : N) ∉ rest →
  parse_status_data (Str.lit "status_" ++ rest) = None
  ∧ process_update s g
      {| effective_user := user; effective_chat := chat_id;
         content := CallbackQuery (Str.lit "status_" ++ rest) |}
    = (s, [answer None]).
Proof.
  intros Hadmin Hrest.
  assert (Hparse : parse_status_data (Str.lit "status_" ++ rest) = None).
  { unfold parse_status_data. rewrite startswith_app.
    change (Str.lit "status_" ++ rest) with (Str.lit "status" ++ 95%N :: rest).
    change (Str.lit "_") with [95%N].
    unfold Str.split. rewrite split_from_app_sep.
    fold (Str.split [95%N] rest). rewrite (split_no_sep 95 rest) by done.
    reflexivity. }
  split; [done|].
  rewrite status_update_routed by apply startswith_app.
  unfold admin_status_handler, is_admin.
  by rewrite Hadmin, Z.eqb_refl, Hparse.
Qed.

(** X17. A status update by the admin on a stored complaint, with the
    gateway working: whatever the old status, the complaint gets the new
    one and keeps its other fields; the submitter is sent the new
    status, and the admin's message is edited to show the updated
    complaint with the status keyboard again.  Other complaints, drafts
    and conversations are untouched. *)
Theorem status_update_applied (s : bot) (g : gateway) (chat_id : Z) (user : User.t)
    (data complaint_id new_status : str) (c : Complaint.t) :
  User.id user = ADMIN_CHAT_ID →
  parse_status_data data = Some (complaint_id, new_status) →
  get_complaint s complaint_id = Some c →
  send_message_ok g = true →
  edit_result g = EditOk →
  let r :=
    process_update s g {| effective_user := user; effective_chat := chat_id;
                          content := CallbackQuery data |} in
  get_complaint r.1 complaint_id = Some (Complaint.set_status new_status c)
  ∧ (∀ k, k ≠ complaint_id → get_complaint r.1 k = get_complaint s k)
  ∧ r.2
    = [answer None;
       send_message (Complaint.user_id c)
         (StatusChangedMsg complaint_id new_status (Complaint.subject c)
            (Complaint.lecture_name c)) None;
       edit_message_text
         (format_complaint_message (Complaint.set_status new_status c))
         (Some (get_status_keyboard complaint_id))]
  ∧ user_data_store r.1 = user_data_store s
  ∧ conversations r.1 = conversations s
  ∧ complaint_counter r.1 = complaint_counter s.
Proof.
  intros Hadmin Hparse Hc Hsent Hedit r. unfold r, get_complaint in *.
  rewrite status_update_routed by (by eapply parse_status_data_prefix).
  unfold admin_status_handler, is_admin, get_complaint, update_complaint_status.
  rewrite Hadmin, Z.eqb_refl, Hparse, Hc, Hsent, Hedit.
  cbn [negb fst snd complaint_store user_data_store conversations complaint_counter].
  rewrite lookup_insert_eq. repeat split.
  intros k Hne. by rewrite lookup_insert_ne.
Qed.

(** X18. When the submitter has been notified but the admin's message
    cannot be edited, the new status stays in the store, and what the
    admin is told depends on the failure: nothing if the message was
    not modified, "user has been notified" on another bad request, and
    "could not notify user" on any other error, although the
    notification was sent. *)
Theorem status_update_edit_failures (s : bot) (g : gateway)
    (chat_id : Z) (user : User.t)
    (data complaint_id new_status : str) (c : Complaint.t) :
  User.id user = ADMIN_CHAT_ID →
  parse_status_data data = Some (complaint_id, new_status) →
  get_complaint s complaint_id = Some c →
  send_message_ok g = true →
  let r :=
    process_update s g {| effective_user := user; effective_chat := chat_id;
                          content := CallbackQuery data |} in
  let notified :=
    [answer None;
     send_message (Complaint.user_id c)
       (StatusChangedMsg complaint_id new_status (Complaint.subject c)
          (Complaint.lecture_name c)) None;
     edit_message_text
       (format_complaint_message (Complaint.set_status new_status c))
       (Some (get_status_keyboard complaint_id))] in
  get_complaint r.1 complaint_id = Some (Complaint.set_status new_status c)
  ∧ (edit_result g = EditNotModified → r.2 = notified)
  ∧ (edit_result g = EditBadRequest →
     r.2 = notified
           ++ [reply_text chat_id (StatusUpdatedNotifiedMsg new_status) None])
  ∧ (edit_result g = EditError →
     r.2 = notified
           ++ [reply_text chat_id (StatusUpdatedNotNotifiedMsg new_status)
                 None]).
Proof.
  intros Hadmin Hparse Hc Hsent r notified. unfold r, notified, get_complaint in *.
  rewrite status_update_routed by (by eapply parse_status_data_prefix).
  unfold admin_status_handler, is_admin, get_complaint, update_complaint_status.
  rewrite Hadmin, Z.eqb_refl, Hparse, Hc, Hsent.
  cbn [negb fst snd complaint_store]. rewrite lookup_insert_eq.
  repeat split; by intros ->.
Qed.

End StatusUpdates.

(** ** Drafts and conversations over a run *)

Section Drafts.

Context `{Config}.

Lemma no_stale_draft_step (home : Z → Z) (s : bot) (g : gateway) (u : Update) :
  no_stale_draft home s →
  effective_chat u = home (User.id (effective_user u)) →
  no_stale_draft home (process_update s g u).1.
Proof.
  intros Hinv Hchat uid.
  destruct (decide (uid = User.id (effective_user u))) as [->|Hne].
  - specialize (Hinv (User.id (effective_user u))).
    unfold process_update, conversation_handler. rewrite Hchat.
    destruct (check_update _ _) as [h|] eqn:Hcheck.
    + apply check_update_state in Hcheck.
      destruct h; cbn [run_callback];
        unfold start_command, batch_selection_handler, subject_selection_handler,
          lecture_name_handler, screenshot_handler, create_complaint, cancel_handler;
        try rewrite Hcheck in Hinv.
      all: repeat match goal with
           | |- context [if ?b then _ else _] => destruct b
           | |- context [match Str.strip ?t with _ => _ end] => destruct (Str.strip t)
           | |- context [match message_photo ?p with _ => _ end] =>
               destruct (message_photo p)
           end; cbn [fst].
      all: try (rewrite update_state_same by done; by rewrite Hcheck).
      all: simpl; rewrite ?lookup_insert_eq, ?lookup_delete_eq; done.
    + destruct (callback_matches _ _).
      * destruct (admin_status_handler_user_data s g
                    (home (User.id (effective_user u))) (effective_user u)
                    (callback_data (content u))) as (-> & -> & _). done.
      * by destruct (content u).
  - destruct (process_update_other_users s g u uid Hne) as [-> Hc].
    rewrite Hc. apply Hinv.
Qed.

Lemma no_stale_draft_run (home : Z → Z) (updates : list (gateway * Update))
    (s : bot) :
  no_stale_draft home s → one_chat home updates →
  no_stale_draft home (run s updates).
Proof.
  revert s. induction updates as [|[g u] updates IH]; intros s Hinv Hone; [done|].
  apply Forall_cons in Hone as [Hu Hrest].
  simpl. apply IH; [|done]. by apply no_stale_draft_step.
Qed.

Lemma foreign_chats_idle_step (home : Z → Z) (s : bot) (g : gateway) (u : Update) :
  (∀ uid chat_id, chat_id ≠ home uid → conversations s !! (chat_id, uid) = None) →
  effective_chat u = home (User.id (effective_user u)) →
  ∀ uid chat_id, chat_id ≠ home uid →
    conversations (process_update s g u).1 !! (chat_id, uid) = None.
Proof.
  intros Hinv Hchat uid chat_id Hne.
  destruct (decide (uid = User.id (effective_user u))) as [->|Hother].
  - specialize (Hinv _ _ Hne).
    unfold process_update, conversation_handler. rewrite Hchat.
    destruct (check_update _ _) as [h|].
    + destruct (run_callback h s g u) as [[s1 acts] r] eqn:Hrun.
      assert (Hconv : conversations s1 = conversations s).
      { destruct h; cbn [run_callback] in Hrun;
          unfold start_command, batch_selection_handler, subject_selection_handler,
            lecture_name_handler, screenshot_handler, create_complaint,
            cancel_handler in Hrun;
          repeat case_match; by simplify_eq. }
      cbn [fst]. destruct r; simpl; rewrite Hconv;
        rewrite ?lookup_insert_ne, ?lookup_delete_ne by congruence; done.
    + destruct (callback_matches _ _).
      * destruct (admin_status_handler_user_data s g
                    (home (User.id (effective_user u))) (effective_user u)
                    (callback_data (content u))) as (_ & -> & _). done.
      * by destruct (content u).
  - destruct (process_update_other_users s g u uid Hother) as [_ ->]. by apply Hinv.
Qed.

Lemma foreign_chats_idle_run (home : Z → Z) (updates : list (gateway * Update))
    (s : bot) :
  (∀ uid chat_id, chat_id ≠ home uid → conversations s !! (chat_id, uid) = None) →
  one_chat home updates →
  ∀ uid chat_id, chat_id ≠ home uid →
    conversations (run s updates) !! (chat_id, uid) = None.
Proof.
  revert s. induction updates as [|[g u] updates IH]; intros s Hinv Hone; [done|].
  apply Forall_cons in Hone as [Hu Hrest].
  simpl. apply IH; [|done]. by apply foreign_chats_idle_step.
Qed.

(** X15. When every user's updates all come from one chat, then after
    any sequence of updates: a user has conversations in no other chat;
    a user who is in no conversation or at the batch step has no draft;
    at the subject step the draft has its batch, at the lecture-name
    step also its subject, and at the photo step also its lecture
    name. *)
Theorem draft_follows_conversation (home : Z → Z)
    (updates : list (gateway * Update)) (uid : Z) :
  one_chat home updates →
  let s := run initial updates in
  (∀ chat_id, chat_id ≠ home uid → conversations s !! (chat_id, uid) = None)
  ∧ (conversations s !! (home uid, uid) = None
     ∨ conversations s !! (home uid, uid) = Some BATCH_SELECTION →
     user_data_store s !! uid = None)
  ∧ step_fields (conversations s !! (home uid, uid)) (get_user_data s uid).
Proof.
  intros Hone s. split; [|split].
  - intros chat_id Hne.
    by apply (foreign_chats_idle_run home updates initial).
  - pose proof (no_stale_draft_run home updates initial) as Hinv.
    fold s in Hinv. specialize (Hinv ltac:(by intros ?) Hone uid).
    by intros [Hc|Hc]; rewrite Hc in Hinv.
  - apply (flow_inv_run home updates initial (flow_inv_initial home) Hone).
Qed.

End Drafts.

(** ** The further properties on the sample session *)

Section MoreSession.

Local Existing Instance default_config.

Lemma clear_user_data_forgets_witness :
  clear_user_data 1 initial = initial.
Proof.
  refine (proj1 (proj2 (proj2 (proj2 (proj2 (clear_user_data_forgets initial 1))))) _).
  reflexivity.
Defined.

Lemma create_complaint_then_get_witness :
  let r := create_complaint (run initial submitted_session) 2 None None None None
             (Str.lit "f") in
  get_complaint r.1 (Str.lit "complaint_1")
  = get_complaint (run initial submitted_session) (Str.lit "complaint_1").
Proof.
  intros r.
  refine (proj1 (proj2 (proj2
    (create_complaint_then_get (run initial submitted_session) 2 None None None None
       (Str.lit "f")))) (Str.lit "complaint_1") _).
  by vm_compute.
Defined.

Lemma update_complaint_status_effect_witness :
  (update_complaint_status (run initial submitted_session)
     (Str.lit "complaint_9") (Str.lit "seen")).1
  = run initial submitted_session.
Proof.
  refine (proj1 (proj2
    (update_complaint_status_effect (run initial submitted_session)
       (Str.lit "complaint_9") (Str.lit "seen"))) _).
  by vm_compute.
Defined.

Lemma stored_lecture_name_trimmed_witness :
  ∃ name before after : str,
    get_user_data
      (lecture_name_handler initial 1 alice (Str.lit "  Limits 2 ")).1.1 1
    !! Str.lit "lecture_name" = Some name
    ∧ Str.lit "  Limits 2 " = before ++ name ++ after
    ∧ all_whitespace before = true ∧ all_whitespace after = true
    ∧ name ≠ [] ∧ trimmed name.
Proof.
  refine (stored_lecture_name_trimmed initial 1 alice (Str.lit "  Limits 2 ") _).
  reflexivity.
Defined.

Lemma users_do_not_interfere_witness :
  user_data_store
    (run (run initial draft_session) [from reviewer (Command (Str.lit "start"))]) !! 1
  = user_data_store (run initial draft_session) !! 1.
Proof.
  refine (proj1 (users_do_not_interfere (run initial draft_session)
                   [from reviewer (Command (Str.lit "start"))] 1 _)).
  repeat constructor. by vm_compute.
Defined.

Lemma store_matches_counter_witness :
  get_complaint (run initial submitted_session) (complaint_id_of 2) = None.
Proof.
  refine (proj2 (proj2 (store_matches_counter submitted_session)) 2%N _).
  by vm_compute.
Defined.

Lemma complaints_persist_witness :
  ∃ c', get_complaint
          (run initial (submitted_session ++ [from alice (Command (Str.lit "start"))]))
          (Str.lit "complaint_1") = Some c'.
Proof.
  destruct (get_complaint (run initial submitted_session) (Str.lit "complaint_1"))
    as [c|] eqn:Hc; [|by vm_compute in Hc].
  destruct (complaints_persist submitted_session
              [from alice (Command (Str.lit "start"))] (Str.lit "complaint_1") c Hc)
    as (c' & Hc' & _).
  by exists c'.
Defined.

Lemma start_resets_conversation_witness :
  conversations
    (process_update (run initial draft_session) gateway_up
       {| effective_user := alice; effective_chat := 1;
          content := Command (Str.lit "start") |}).1 !! (1, 1)
  = Some BATCH_SELECTION.
Proof.
  refine (proj1 (proj2 (proj2 (proj2
    (start_resets_conversation (run initial draft_session) gateway_up 1 alice
       (Str.lit "start") _))))).
  reflexivity.
Defined.

Lemma cancel_ends_conversation_witness :
  user_data_store
    (process_update (run initial draft_session) gateway_up
       {| effective_user := alice; effective_chat := 1;
          content := Command (Str.lit "cancel") |}).1 !! 1
  = None.
Proof.
  refine (proj1 (proj2
    (cancel_ends_conversation (run initial draft_session) gateway_up 1 alice
       (Str.lit "cancel") SCREENSHOT_UPLOAD _ _))).
  - by vm_compute.
  - reflexivity.
Defined.

Lemma idle_user_only_starts_witness :
  process_update (run initial submitted_session) gateway_up
    {| effective_user := alice; effective_chat := 1;
       content := Command (Str.lit "cancel") |}
  = (run initial submitted_session, [reply_text 1 UnknownCommandMsg None]).
Proof.
  refine (proj2 (proj2
    (idle_user_only_starts (run initial submitted_session) gateway_up
       {| effective_user := alice; effective_chat := 1;
          content := Command (Str.lit "cancel") |} _ _)) _).
  - by vm_compute.
  - reflexivity.
  - reflexivity.
Defined.

Lemma unknown_command_ignored_witness :
  process_update (run initial draft_session) gateway_up
    {| effective_user := alice; effective_chat := 1;
       content := Command (Str.lit "help") |}
  = (run initial draft_session, [reply_text 1 UnknownCommandMsg None]).
Proof.
  refine (unknown_command_ignored (run initial draft_session) gateway_up 1 alice
            (Str.lit "help") _ _); reflexivity.
Defined.

Lemma subject_selection_accepts_prefix_witness :
  get_user_data
    (process_update (run initial (take 2 draft_session)) gateway_up
       {| effective_user := alice; effective_chat := 1;
          content := CallbackQuery (Str.lit "subject_Current_Affairs") |}).1 1
  !! Str.lit "batch"
  = get_user_data (run initial (take 2 draft_session)) 1 !! Str.lit "batch".
Proof.
  refine (proj1 (proj2 (proj1
    (subject_selection_accepts_prefix (run initial (take 2 draft_session))
       gateway_up 1 alice (Str.lit "subject_Current_Affairs") _) _))).
  - by vm_compute.
  - reflexivity.
Defined.

Lemma restart_button_keeps_state_witness :
  process_update (run initial (take 1 draft_session)) gateway_up
    {| effective_user := alice; effective_chat := 1;
       content := CallbackQuery (Str.lit "restart") |}
  = (run initial (take 1 draft_session),
     [answer None; reply_text 1 StartingOverMsg (Some get_batch_keyboard)]).
Proof.
  refine (restart_button_keeps_state (run initial (take 1 draft_session))
            gateway_up 1 alice (Str.lit "restart") _ _).
  - by vm_compute.
  - reflexivity.
Defined.

Lemma photo_step_rejects_other_input_witness :
  process_update (run initial draft_session) gateway_up
    {| effective_user := alice; effective_chat := 1; content := Attachment |}
  = (run initial draft_session, []).
Proof.
  refine (proj1 (proj2
    (photo_step_rejects_other_input (run initial draft_session) gateway_up 1 alice _))).
  by vm_compute.
Defined.

Lemma submission_survives_forwarding_failure_witness :
  user_data_store
    (process_update (run initial draft_session)
       {| send_photo_ok := false; send_message_ok := true; edit_result := EditOk |}
       {| effective_user := alice; effective_chat := 1;
          content := Photo screenshot |}).1 !! 1
  = None.
Proof.
  refine (proj1 (proj2 (proj2
    (submission_survives_forwarding_failure (run initial draft_session)
       {| send_photo_ok := false; send_message_ok := true; edit_result := EditOk |}
       1 alice _ _ _ _)))).
  - by vm_compute.
  - reflexivity.
Defined.

Lemma short_status_data_ignored_witness :
  process_update (run initial submitted_session) gateway_up
    {| effective_user := reviewer; effective_chat := 5915871770;
       content := CallbackQuery (Str.lit "status_" ++ Str.lit "approved") |}
  = (run initial submitted_session, [answer None]).
Proof.
  refine (proj2 (short_status_data_ignored (run initial submitted_session)
                   gateway_up 5915871770 reviewer (Str.lit "approved") _ _)).
  - reflexivity.
  - intros H. repeat (apply elem_of_cons in H as [H|H]; [discriminate H|]).
    by apply elem_of_nil in H.
Defined.

Lemma status_update_applied_witness :
  Complaint.status
  <$> get_complaint
        (process_update (run initial submitted_session) gateway_up
           {| effective_user := reviewer; effective_chat := 5915871770;
              content := CallbackQuery (Str.lit "status_complaint_1_seen") |}).1
        (Str.lit "complaint_1")
  = Some (Str.lit "seen").
Proof.
  destruct (get_complaint (run initial submitted_session) (Str.lit "complaint_1"))
    as [c|] eqn:Hc; [|by vm_compute in Hc].
  rewrite (proj1 (@status_update_applied default_config
                    (run initial submitted_session) gateway_up
                    5915871770 reviewer (Str.lit "status_complaint_1_seen")
                    (Str.lit "complaint_1") (Str.lit "seen") c
                    ltac:(reflexivity) ltac:(by vm_compute) Hc
                    ltac:(reflexivity) ltac:(reflexivity))).
  reflexivity.
Defined.

Lemma status_update_edit_failures_witness :
  Complaint.status
  <$> get_complaint
        (process_update (run initial submitted_session)
           {| send_photo_ok := true; send_message_ok := true;
              edit_result := EditError |}
           {| effective_user := reviewer; effective_chat := 5915871770;
              content := CallbackQuery (Str.lit "status_complaint_1_seen") |}).1
        (Str.lit "complaint_1")
  = Some (Str.lit "seen").
Proof.
  destruct (get_complaint (run initial submitted_session) (Str.lit "complaint_1"))
    as [c|] eqn:Hc; [|by vm_compute in Hc].
  rewrite (proj1 (@status_update_edit_failures default_config
                    (run initial submitted_session)
                    {| send_photo_ok := true; send_message_ok := true;
                       edit_result := EditError |}
                    5915871770 reviewer (Str.lit "status_complaint_1_seen")
                    (Str.lit "complaint_1") (Str.lit "seen") c
                    ltac:(reflexivity) ltac:(by vm_compute) Hc ltac:(reflexivity))).
  reflexivity.
Defined.

Lemma draft_follows_conversation_witness :
  user_data_store (run initial submitted_session) !! 1 = None.
Proof.
  refine (proj1 (proj2
    (draft_follows_conversation (fun uid => uid) submitted_session 1 _)) _).
  - repeat constructor.
  - left. by vm_compute.
Defined.

End MoreSession.
